(** * FastCalvoTrainer.run_my_task: a shallow embedding

    The Rodan job [FastCalvoTrainer] (src/fast_calvo_trainer.py) reads a base
    image and RGBA annotation layers, thresholds their alpha channels into
    per-class boolean masks, collects the optional classes and output paths,
    and calls the external trainer [training.train_msae] once, inside a
    try/finally that restores [sys.stdout] and [sys.stderr].

    Python dictionaries that the code iterates over ([inputs], [outputs]) are
    association lists in insertion order; dictionaries that are only built and
    looked up ([gt], [output_models_path], [settings]) are [gmap]s.  Exceptions
    are values of [exn]; process-wide state (stream bindings, the handlers of
    the module's logger) is threaded explicitly. *)

From stdpp Require Import base strings list gmap.
From Stdlib Require Import ZArith Lia.

Local Open Scope string_scope.
Local Open Scope nat_scope.
Local Open Scope list_scope.

(** ** Exceptions and the error monad *)

Inductive exn : Type :=
  | KeyError (key : string)      (* d[k] with k missing *)
  | IndexError                   (* l[0] on an empty list, or channel 3 of a <4-channel array *)
  | TypeError                    (* subscripting None (cv2.imread found no image) *)
  | ValueError                   (* operands could not be broadcast together *)
  | IOError (path : string)      (* logging.FileHandler could not open its file *)
  | TrainerError (code : Z).     (* anything raised inside training.train_msae *)

Inductive result (A : Type) : Type :=
  | Ok (a : A)
  | Raise (e : exn).
Arguments Ok {A} a.
Arguments Raise {A} e.

#[global] Instance result_ret : MRet result := fun _ a => Ok a.
#[global] Instance result_bind : MBind result := fun _ _ f r =>
  match r with
  | Ok a => f a
  | Raise e => Raise e
  end.

Definition is_raise {A} (r : result A) : bool :=
  match r with Ok _ => false | Raise _ => true end.

(** ** Port dictionaries *)

Record resource : Type := { resource_path : string }.

Definition dict (V : Type) : Type := list (string * V).

Fixpoint dict_get {V} (d : dict V) (k : string) : option V :=
  match d with
  | [] => None
  | (k', v) :: d' => if String.eqb k k' then Some v else dict_get d' k
  end.

Definition keys {V} (d : dict V) : list string := map fst d.

(** [d[k]] *)
Definition getitem {V} (d : dict V) (k : string) : result V :=
  match dict_get d k with
  | Some v => Ok v
  | None => Raise (KeyError k)
  end.

(** [l[0]] *)
Definition first {A} (l : list A) : result A :=
  match l with
  | x :: _ => Ok x
  | [] => Raise IndexError
  end.

(** [d[port][0]['resource_path']] *)
Definition port_path (d : dict (list resource)) (port : string) : result string :=
  l ← getitem d port;
  r ← first l;
  Ok (resource_path r).

(** [settings[k]] on the settings dictionary *)
Definition setting (settings : gmap string Z) (k : string) : result Z :=
  match settings !! k with
  | Some v => Ok v
  | None => Raise (KeyError k)
  end.

(** Port names of [input_port_types] and [output_port_types]. *)
Definition IMAGE := "Image".
Definition BACKGROUND_LAYER := "rgba PNG - Background layer".
Definition SYMBOL_LAYER := "rgba PNG - Music symbol layer".
Definition SELECTED_REGIONS := "rgba PNG - Selected regions".
Definition STAFF_LAYER := "rgba PNG - Staff Lines layer".
Definition TEXT_LAYER := "rgba PNG - Text".
Definition BACKGROUND_MODEL := "Background Model".
Definition SYMBOL_MODEL := "Music Symbol Model".
Definition LOG_FILE := "Log File".
Definition STAFF_MODEL := "Staff Lines Model".
Definition TEXT_MODEL := "Text Model".

(** The classes of the ground truth and the ports that feed them: the port
    of the annotation layer of a class restricted to the selected regions,
    and the port of the model of an optional class. *)
Definition restricted_layer (c : string) : option string :=
  if String.eqb c "symbols" then Some SYMBOL_LAYER
  else if String.eqb c "staff" then Some STAFF_LAYER
  else if String.eqb c "text" then Some TEXT_LAYER
  else None.

Definition model_port (c : string) : option string :=
  if String.eqb c "background" then Some BACKGROUND_MODEL
  else if String.eqb c "symbols" then Some SYMBOL_MODEL
  else if String.eqb c "staff" then Some STAFF_MODEL
  else if String.eqb c "text" then Some TEXT_MODEL
  else None.

(** The line printed after the trainer's call. *)
Definition FINISHED := "Finishing the Fast CM trainer job.".

(** ** Arrays

    A decoded image is a height x width x channels array of 8-bit values,
    kept as nested lists in row-major order.  [cv2.imread] never returns an
    empty array (it returns [None] instead), so the shape is read off the
    first row and the first pixel. *)

Definition image : Type := list (list (list Z)).
Definition mask : Type := list (list bool).

Definition nrows {A} (a : list (list A)) : nat := length a.
Definition ncols {A} (a : list (list A)) : nat := length (hd [] a).
Definition nchannels (a : image) : nat := length (hd [] (hd [] a)).
Definition shape {A} (a : list (list A)) : nat * nat := (nrows a, ncols a).

(** [m[i, j]], [false] outside the array *)
Definition at2 (m : mask) (i j : nat) : bool := nth j (nth i m []) false.

(** [f(i, j)] for [i < h], [j < w] *)
Definition tabulate2 (h w : nat) (f : nat -> nat -> bool) : mask :=
  map (fun i => map (fun j => f i j) (seq 0 w)) (seq 0 h).

(** [a[:, :, 3] == 255] where [a] is what [cv2.imread] returned *)
Definition alpha_opaque (a : option image) : result mask :=
  match a with
  | None => Raise TypeError
  | Some a =>
      if nchannels a <=? 3 then Raise IndexError
      else Ok (map (map (fun px => Z.eqb (nth 3 px 0%Z) 255)) a)
  end.

(** numpy's broadcasting rule for one axis *)
Definition broadcast_dim (a b : nat) : option nat :=
  if a =? b then Some a
  else if a =? 1 then Some b
  else if b =? 1 then Some a
  else None.

(** the index read from an axis of extent [n] when the result index is [i] *)
Definition bidx (n i : nat) : nat := if n =? 1 then 0 else i.

(** [np.logical_and(a, b)] on two 2-D boolean arrays *)
Definition logical_and (a b : mask) : result mask :=
  match broadcast_dim (nrows a) (nrows b), broadcast_dim (ncols a) (ncols b) with
  | Some h, Some w =>
      Ok (tabulate2 h w (fun i j =>
            at2 a (bidx (nrows a) i) (bidx (ncols a) j)
            && at2 b (bidx (nrows b) i) (bidx (ncols b) j)))
  | _, _ => Raise ValueError
  end.

(** Whether two arrays can be broadcast together. *)
Definition broadcastable {A B} (a : list (list A)) (b : list (list B)) : bool :=
  match broadcast_dim (nrows a) (nrows b), broadcast_dim (ncols a) (ncols b) with
  | Some _, Some _ => true
  | _, _ => false
  end.

(** ** The trainer's call and the process state *)

Inductive imread_flag : Type := IMREAD_COLOR | IMREAD_UNCHANGED.

(** The keyword arguments of [training.train_msae]. *)
Record train_args : Type := {
  input_image : option image;
  gt : gmap string mask;
  height : Z;
  width : Z;
  output_path : gmap string string;
  epochs : Z;
  max_samples_per_class : Z;
  batch_size : Z
}.

Inductive stream : Type :=
  | Stream (name : string)            (* an ordinary file object *)
  | LoggingProxy (loglevel : string). (* celery's proxy onto the task logger *)

Record handler : Type := FileHandler {
  baseFilename : string;
  formatter : option string
}.

Definition setFormatter (h : handler) (fmt : string) : handler :=
  {| baseFilename := baseFilename h; formatter := Some fmt |}.

(** What outlives an invocation: the two stream bindings of [sys] and the
    handler list of the module-level [logger]. *)
Record proc : Type := {
  sys_stdout : stream;
  sys_stderr : stream;
  logger_handlers : list handler
}.

(** What an invocation does to the outside, in order: a call of the trainer
    (with the process state it was made in and what came back) and a line
    printed. *)
Inductive event : Type :=
  | TrainCall (args : train_args) (at_call : proc) (outcome : result bool)
  | Printed (out : stream) (text : string).

Record world : Type := {
  process : proc;
  trace : list event
}.

(** The arguments of the trainer's calls in a trace, oldest first. *)
Fixpoint trainer_calls (t : list event) : list train_args :=
  match t with
  | [] => []
  | TrainCall args _ _ :: t' => args :: trainer_calls t'
  | Printed _ _ :: t' => trainer_calls t'
  end.

(** ** State and exceptions *)

Definition M (A : Type) : Type := world -> result A * world.

Definition m_ret {A} (a : A) : M A := fun w => (Ok a, w).

Definition m_bind {A B} (c : M A) (k : A -> M B) : M B := fun w =>
  match c w with
  | (Ok a, w') => k a w'
  | (Raise e, w') => (Raise e, w')
  end.

Definition lift {A} (r : result A) : M A := fun w => (r, w).

Notation "x <- c ;; k" := (m_bind c (fun x => k))
  (at level 100, c at next level, right associativity).

(** [try: body finally: final] where [final] cannot raise *)
Definition try_finally {A} (body : M A) (final : world -> world) : M A := fun w =>
  let (r, w') := body w in (r, final w').

Definition with_process (f : proc -> proc) (w : world) : world :=
  {| process := f (process w); trace := trace w |}.

(** [sys.stdout, sys.stderr = outs] *)
Definition set_streams (outs : stream * stream) (p : proc) : proc :=
  {| sys_stdout := fst outs; sys_stderr := snd outs; logger_handlers := logger_handlers p |}.

(** [logger.addHandler(h)]; the handler object is new, so it is appended *)
Definition add_handlers (hs : list handler) (p : proc) : proc :=
  {| sys_stdout := sys_stdout p; sys_stderr := sys_stderr p;
     logger_handlers := (logger_handlers p ++ hs)%list |}.

Definition addHandler (h : handler) : M unit := fun w =>
  (Ok tt, with_process (add_handlers [h]) w).

(** [app.log.redirect_stdouts_to_logger(logger, rlevel)] *)
Definition redirect_stdouts_to_logger (rlevel : string) : M unit := fun w =>
  (Ok tt, with_process (set_streams (LoggingProxy rlevel, LoggingProxy rlevel)) w).

(** [print(text)] writes to whatever [sys.stdout] is bound to *)
Definition print (text : string) : M unit := fun w =>
  (Ok tt, {| process := process w;
             trace := (trace w ++ [Printed (sys_stdout (process w)) text])%list |}).

(** [for k in ks: s = body(s, k)] *)
Fixpoint for_each {S} (ks : list string) (body : S -> string -> result S) (s : S) : result S :=
  match ks with
  | [] => Ok s
  | k :: ks' => s' ← body s k; for_each ks' body s'
  end.

Section Task.

(** [cv2.imread]: the decoded array at a path, or [None] when there is no
    readable image there. *)
Variable imread : string -> imread_flag -> option image.

(** Whether [logging.FileHandler] can open the file at a path; it opens
    the file when it is constructed and raises otherwise. *)
Variable can_open : string -> bool.

(** [app.conf.CELERY_REDIRECT_STDOUTS_LEVEL] *)
Variable rlevel : string.

(** Modelled from the spec: the external trainer
    ([training_engine_sae.train_msae], outside this module) takes the
    call's arguments, may do anything to the process state, and returns a
    boolean success signal or raises. *)
Variable train_msae : train_args -> proc -> result bool * proc.

(** [logging.FileHandler(path)] *)
Definition newFileHandler (path : string) : M handler := fun w =>
  if can_open path
  then (Ok {| baseFilename := path; formatter := None |}, w)
  else (Raise (IOError path), w).

(** [training.train_msae(...)] *)
Definition call_trainer (args : train_args) : M bool := fun w =>
  let (r, p') := train_msae args (process w) in
  (r, {| process := p'; trace := (trace w ++ [TrainCall args (process w) r])%list |}).

(** Lines 86-91: the file handler of the log output. *)
Definition attach_log_handler (outputs : dict (list resource)) : M unit :=
  logs <- lift (getitem outputs LOG_FILE) ;;
  if 0 <? length logs then
    r <- lift (first logs) ;;
    h <- newFileHandler (resource_path r) ;;
    addHandler (setFormatter h "%(asctime)s - %(name)s - %(message)s")
  else m_ret tt.

(** The handlers that lines 86-91 attach, or the exception they raise:
    what the code does there, named so that the properties can speak of
    it. *)
Definition log_setup (outputs : dict (list resource)) : result (list handler) :=
  match dict_get outputs LOG_FILE with
  | None => Raise (KeyError LOG_FILE)
  | Some [] => Ok []
  | Some (r :: _) =>
      if can_open (resource_path r)
      then Ok [{| baseFilename := resource_path r;
                  formatter := Some "%(asctime)s - %(name)s - %(message)s" |}]
      else Raise (IOError (resource_path r))
  end.

(** Lines 122-130: one turn of [for k in inputs]. *)
Definition optional_layer (inputs : dict (list resource)) (regions_mask : mask)
    (gt : gmap string mask) (k : string) : result (gmap string mask) :=
  gt ← (if String.eqb k STAFF_LAYER then
          p ← port_path inputs STAFF_LAYER;
          lines_mask ← alpha_opaque (imread p IMREAD_UNCHANGED);
          m ← logical_and lines_mask regions_mask;
          Ok (<["staff" := m]> gt)
        else Ok gt);
  if String.eqb k TEXT_LAYER then
    p ← port_path inputs TEXT_LAYER;
    text_mask ← alpha_opaque (imread p IMREAD_UNCHANGED);
    m ← logical_and text_mask regions_mask;
    Ok (<["text" := m]> gt)
  else Ok gt.

(** Lines 132-136: one turn of [for k in outputs]. *)
Definition optional_model (outputs : dict (list resource))
    (output_models_path : gmap string string) (k : string) : result (gmap string string) :=
  paths ← (if String.eqb k STAFF_MODEL then
             p ← port_path outputs STAFF_MODEL;
             Ok (<["staff" := p]> output_models_path)
           else Ok output_models_path);
  if String.eqb k TEXT_MODEL then
    p ← port_path outputs TEXT_MODEL;
    Ok (<["text" := p]> paths)
  else Ok paths.

(** Lines 97-136: everything between the redirection and the trainer's
    call; it reads files and dictionaries and changes no state. *)
Definition prepare (inputs : dict (list resource)) (settings : gmap string Z)
    (outputs : dict (list resource)) : result train_args :=
  p ← port_path inputs IMAGE;
  let input_image := imread p IMREAD_COLOR in
  p ← port_path inputs BACKGROUND_LAYER;
  let background := imread p IMREAD_UNCHANGED in
  p ← port_path inputs SYMBOL_LAYER;
  let notes := imread p IMREAD_UNCHANGED in
  p ← port_path inputs SELECTED_REGIONS;
  let regions := imread p IMREAD_UNCHANGED in
  regions_mask ← alpha_opaque regions;
  notes_mask ← alpha_opaque notes;
  symbols ← logical_and notes_mask regions_mask;
  let gt : gmap string mask := <["symbols" := symbols]> ∅ in
  background_mask ← alpha_opaque background;
  let gt := <["background" := background_mask]> gt in
  batch_size ← setting settings "Batch Size";
  patch_height ← setting settings "Patch height";
  patch_width ← setting settings "Patch width";
  max_number_of_epochs ← setting settings "Maximum number of training epochs";
  max_samples_per_class ← setting settings "Maximum number of samples per label";
  p_background ← port_path outputs BACKGROUND_MODEL;
  p_symbols ← port_path outputs SYMBOL_MODEL;
  let output_models_path : gmap string string :=
    <["symbols" := p_symbols]> (<["background" := p_background]> ∅) in
  gt ← for_each (keys inputs) (optional_layer inputs regions_mask) gt;
  output_models_path ← for_each (keys outputs) (optional_model outputs) output_models_path;
  Ok {| input_image := input_image;
        gt := gt;
        height := patch_height;
        width := patch_width;
        output_path := output_models_path;
        epochs := max_number_of_epochs;
        max_samples_per_class := max_samples_per_class;
        batch_size := batch_size |}.

(** The alpha test of the layer at an input port, and its restriction to
    the selected regions: what the code computes for a class, named so
    that the properties can speak of it. *)
Definition layer_mask (inputs : dict (list resource)) (port : string) : result mask :=
  p ← port_path inputs port;
  alpha_opaque (imread p IMREAD_UNCHANGED).

Definition restricted_mask (inputs : dict (list resource)) (port : string)
    (regions_mask : mask) : result mask :=
  m ← layer_mask inputs port;
  logical_and m regions_mask.

(** Lines 93-151: the body of the [try]. *)
Definition task_body (inputs : dict (list resource)) (settings : gmap string Z)
    (outputs : dict (list resource)) : M bool :=
  _ <- redirect_stdouts_to_logger rlevel ;;
  args <- lift (prepare inputs settings outputs) ;;
  status <- call_trainer args ;;
  _ <- print FINISHED ;;
  m_ret true.

(** [FastCalvoTrainer.run_my_task] *)
Definition run_my_task (inputs : dict (list resource)) (settings : gmap string Z)
    (outputs : dict (list resource)) : M bool := fun w =>
  let oldouts := (sys_stdout (process w), sys_stderr (process w)) in
  (_ <- attach_log_handler outputs ;;
   try_finally (task_body inputs settings outputs)
               (with_process (set_streams oldouts))) w.

End Task.

(** ** Concrete invocations *)

Module Examples.

Definition px (a : Z) : list Z := [0; 0; 0; a]%Z.
Definition rgb : list Z := [10; 20; 30]%Z.

(** a 3x3 base image and 2x2 layers *)
Definition base3 : image := [[rgb; rgb; rgb]; [rgb; rgb; rgb]; [rgb; rgb; rgb]].
Definition opaque2 : image := [[px 255; px 255]; [px 255; px 255]].
Definition left2 : image := [[px 255; px 0]; [px 255; px 0]].
Definition top2 : image := [[px 255; px 255]; [px 0; px 17]].
Definition wide3 : image := [[px 255; px 255; px 255]; [px 0; px 0; px 0]].

Definition files (path : string) (_ : imread_flag) : option image :=
  if String.eqb path "image.png" then Some base3
  else if String.eqb path "background.png" then Some left2
  else if String.eqb path "symbols.png" then Some top2
  else if String.eqb path "regions.png" then Some left2
  else if String.eqb path "staff.png" then Some opaque2
  else if String.eqb path "wide.png" then Some wide3
  else None.

Definition at_path (p : string) : list resource := [{| resource_path := p |}].

Definition inputs0 : dict (list resource) :=
  [(IMAGE, at_path "image.png");
   (BACKGROUND_LAYER, at_path "background.png");
   (SYMBOL_LAYER, at_path "symbols.png");
   (SELECTED_REGIONS, at_path "regions.png")].

(** the staff-lines layer is supplied as well *)
Definition inputs_staff : dict (list resource) :=
  (inputs0 ++ [(STAFF_LAYER, at_path "staff.png")])%list.

(** a symbols layer of 2x3 against regions of 2x2 *)
Definition inputs_wide : dict (list resource) :=
  [(IMAGE, at_path "image.png");
   (BACKGROUND_LAYER, at_path "background.png");
   (SYMBOL_LAYER, at_path "wide.png");
   (SELECTED_REGIONS, at_path "regions.png")].

Definition outputs0 : dict (list resource) :=
  [(BACKGROUND_MODEL, at_path "background.hdf5");
   (SYMBOL_MODEL, at_path "symbols.hdf5");
   (LOG_FILE, at_path "log.txt")].

(** the log-file slot is there with no destination in it *)
Definition outputs_nolog : dict (list resource) :=
  [(BACKGROUND_MODEL, at_path "background.hdf5");
   (SYMBOL_MODEL, at_path "symbols.hdf5");
   (LOG_FILE, [])].

Definition settings0 : gmap string Z :=
  <["Batch Size" := 16%Z]>
  (<["Patch height" := 256%Z]>
  (<["Patch width" := 256%Z]>
  (<["Maximum number of training epochs" := 15%Z]>
  (<["Maximum number of samples per label" := 2000%Z]> ∅)))).

Definition writable (_ : string) : bool := true.
Definition unwritable (_ : string) : bool := false.

(** trainers that leave the process alone and signal success or failure *)
Definition trainer_ok (_ : train_args) (p : proc) : result bool * proc := (Ok true, p).
Definition trainer_failed (_ : train_args) (p : proc) : result bool * proc := (Ok false, p).

Definition p0 : proc :=
  {| sys_stdout := Stream "<stdout>"; sys_stderr := Stream "<stderr>";
     logger_handlers := [] |}.
Definition w0 : world := {| process := p0; trace := [] |}.

(** a trainer that rebinds both streams and then raises *)
Definition trainer_crash (_ : train_args) (p : proc) : result bool * proc :=
  (Raise (TrainerError 1), set_streams (Stream "elsewhere", Stream "elsewhere") p).

(** the process at the trainer's call when the log handler was attached *)
Definition log_handler : handler :=
  {| baseFilename := "log.txt";
     formatter := Some "%(asctime)s - %(name)s - %(message)s" |}.
Definition p_call : proc :=
  {| sys_stdout := LoggingProxy "WARNING"; sys_stderr := LoggingProxy "WARNING";
     logger_handlers := [log_handler] |}.

(** the arguments the trainer is called with for [inputs0] and [outputs0] *)
Definition args0 : train_args :=
  {| input_image := Some base3;
     gt := <["background" := [[true; false]; [true; false]]]>
           (<["symbols" := [[true; false]; [false; false]]]> ∅);
     height := 256;
     width := 256;
     output_path := <["symbols" := "symbols.hdf5"]> (<["background" := "background.hdf5"]> ∅);
     epochs := 15;
     max_samples_per_class := 2000;
     batch_size := 16 |}.

(** and for [inputs_staff] and [outputs0]: 'staff' is in the ground truth
    and not among the output paths *)
Definition args_staff : train_args :=
  {| input_image := Some base3;
     gt := <["staff" := [[true; false]; [true; false]]]>
           (<["background" := [[true; false]; [true; false]]]>
           (<["symbols" := [[true; false]; [false; false]]]> ∅));
     height := 256;
     width := 256;
     output_path := <["symbols" := "symbols.hdf5"]> (<["background" := "background.hdf5"]> ∅);
     epochs := 15;
     max_samples_per_class := 2000;
     batch_size := 16 |}.

(** the invocations the examples run *)
Definition run_plain (train : train_args -> proc -> result bool * proc) : result bool * world :=
  run_my_task files writable "WARNING" train inputs0 settings0 outputs0 w0.
Definition run_staff : result bool * world :=
  run_my_task files writable "WARNING" trainer_ok inputs_staff settings0 outputs0 w0.
Definition run_wide : result bool * world :=
  run_my_task files writable "WARNING" trainer_ok inputs_wide settings0 outputs0 w0.
Definition run_nolog : result bool * world :=
  run_my_task files writable "WARNING" trainer_ok inputs0 settings0 outputs_nolog w0.
Definition run_unwritable : result bool * world :=
  run_my_task files unwritable "WARNING" trainer_ok inputs0 settings0 outputs0 w0.

End Examples.

(** ** The declarations of the job

    The class attributes [input_port_types], [output_port_types] and
    [settings] of [FastCalvoTrainer], as data. *)

Module Port.
Record t : Type := {
  name : string;
  minimum : nat;
  maximum : nat;
  resource_types : list string
}.
End Port.

Module Setting.
Record t : Type := {
  name : string;
  minimum : Z;
  maximum : option Z;
  default : Z
}.
End Setting.

Definition input_port_types : list Port.t :=
  [ {| Port.name := IMAGE; Port.minimum := 1; Port.maximum := 1;
       Port.resource_types := ["image/rgb+png"; "image/rgb+jpg"] |};
    {| Port.name := BACKGROUND_LAYER; Port.minimum := 1; Port.maximum := 1;
       Port.resource_types := ["image/rgba+png"] |};
    {| Port.name := SYMBOL_LAYER; Port.minimum := 1; Port.maximum := 1;
       Port.resource_types := ["image/rgba+png"] |};
    {| Port.name := SELECTED_REGIONS; Port.minimum := 1; Port.maximum := 1;
       Port.resource_types := ["image/rgba+png"] |};
    {| Port.name := STAFF_LAYER; Port.minimum := 0; Port.maximum := 1;
       Port.resource_types := ["image/rgba+png"] |};
    {| Port.name := TEXT_LAYER; Port.minimum := 0; Port.maximum := 1;
       Port.resource_types := ["image/rgba+png"] |} ].

Definition output_port_types : list Port.t :=
  [ {| Port.name := BACKGROUND_MODEL; Port.minimum := 1; Port.maximum := 1;
       Port.resource_types := ["keras/model+hdf5"] |};
    {| Port.name := SYMBOL_MODEL; Port.minimum := 1; Port.maximum := 1;
       Port.resource_types := ["keras/model+hdf5"] |};
    {| Port.name := LOG_FILE; Port.minimum := 1; Port.maximum := 1;
       Port.resource_types := ["text/plain"] |};
    {| Port.name := STAFF_MODEL; Port.minimum := 0; Port.maximum := 1;
       Port.resource_types := ["keras/model+hdf5"] |};
    {| Port.name := TEXT_MODEL; Port.minimum := 0; Port.maximum := 1;
       Port.resource_types := ["keras/model+hdf5"] |} ].

(** [settings['properties']]: the integer properties with their bounds *)
Definition settings_properties : list Setting.t :=
  [ {| Setting.name := "Batch Size"; Setting.minimum := 1;
       Setting.maximum := Some 64%Z; Setting.default := 16 |};
    {| Setting.name := "Maximum number of training epochs"; Setting.minimum := 1;
       Setting.maximum := None; Setting.default := 15 |};
    {| Setting.name := "Maximum number of samples per label"; Setting.minimum := 100;
       Setting.maximum := None; Setting.default := 2000 |};
    {| Setting.name := "Patch height"; Setting.minimum := 32;
       Setting.maximum := None; Setting.default := 256 |};
    {| Setting.name := "Patch width"; Setting.minimum := 32;
       Setting.maximum := None; Setting.default := 256 |} ].

(** The number of resources a port dictionary holds at a port. *)
Definition supplied (d : dict (list resource)) (port : string) : nat :=
  match dict_get d port with
  | Some l => length l
  | None => 0
  end.

(** A port dictionary respects the declared cardinalities, and has a key
    only for a port that holds a resource: what the declarations ask of the
    dictionaries handed to [run_my_task]. *)
Definition within (d : dict (list resource)) (pt : Port.t) : bool :=
  (Port.minimum pt <=? supplied d (Port.name pt))
  && (supplied d (Port.name pt) <=? Port.maximum pt).

Definition no_empty_slot (d : dict (list resource)) : bool :=
  forallb (fun kv => negb (length (snd kv) =? 0)) d.

Definition conforms (pts : list Port.t) (d : dict (list resource)) : bool :=
  forallb (within d) pts && no_empty_slot d.

(** A value lies between the inclusive bounds a property declares. *)
Definition in_range (pr : Setting.t) (v : Z) : bool :=
  (Setting.minimum pr <=? v)%Z
  && match Setting.maximum pr with
     | Some m => (v <=? m)%Z
     | None => true
     end.

(** Every declared property is set, within its bounds. *)
Definition valid_settings (settings : gmap string Z) : bool :=
  forallb (fun pr =>
             match settings !! Setting.name pr with
             | Some v => in_range pr v
             | None => false
             end) settings_properties.

(** The settings made of the declared defaults. *)
Definition default_settings : gmap string Z :=
  list_to_map (map (fun pr => (Setting.name pr, Setting.default pr)) settings_properties).

(** The arguments of a call with another base image. *)
Definition with_input_image (img : option image) (args : train_args) : train_args :=
  {| input_image := img;
     gt := gt args;
     height := height args;
     width := width args;
     output_path := output_path args;
     epochs := epochs args;
     max_samples_per_class := max_samples_per_class args;
     batch_size := batch_size args |}.

(** The handlers that the log setup of an invocation attaches. *)
Definition attached (can_open : string -> bool) (outputs : dict (list resource))
    : list handler :=
  match log_setup can_open outputs with
  | Ok hs => hs
  | Raise _ => []
  end.

(** A port dictionary cut down to the first resource of every port. *)
Definition first_only (d : dict (list resource)) : dict (list resource) :=
  map (fun kv => (fst kv, take 1 (snd kv))) d.

(** The alpha value of the pixel at row [i], column [j]. *)
Definition alpha_at (a : image) (i j : nat) : Z :=
  nth 3 (nth j (nth i a []) []) 0%Z.

(** ** Further invocations *)

Module Scenarios.

Import Examples.

(** no base image among the inputs *)
Definition inputs_noimage : dict (list resource) :=
  [(BACKGROUND_LAYER, at_path "background.png");
   (SYMBOL_LAYER, at_path "symbols.png");
   (SELECTED_REGIONS, at_path "regions.png")].

(** the selected regions at a path where there is no image *)
Definition inputs_unreadable : dict (list resource) :=
  [(IMAGE, at_path "image.png");
   (BACKGROUND_LAYER, at_path "background.png");
   (SYMBOL_LAYER, at_path "symbols.png");
   (SELECTED_REGIONS, at_path "nowhere.png")].

(** no log-file slot among the outputs *)
Definition outputs_nokey : dict (list resource) :=
  [(BACKGROUND_MODEL, at_path "background.hdf5");
   (SYMBOL_MODEL, at_path "symbols.hdf5")].

(** the outputs of a second invocation, with a log file of its own *)
Definition outputs_second : dict (list resource) :=
  [(BACKGROUND_MODEL, at_path "background2.hdf5");
   (SYMBOL_MODEL, at_path "symbols2.hdf5");
   (LOG_FILE, at_path "second.txt")].
Definition second_handler : handler :=
  {| baseFilename := "second.txt";
     formatter := Some "%(asctime)s - %(name)s - %(message)s" |}.

(** a decoder that finds the layers and no base image *)
Definition files_blind (path : string) (flag : imread_flag) : option image :=
  match flag with
  | IMREAD_COLOR => None
  | IMREAD_UNCHANGED => files path flag
  end.

Definition run_on (inputs : dict (list resource)) (settings : gmap string Z)
    (outputs : dict (list resource)) (w : world) : result bool * world :=
  run_my_task files writable "WARNING" trainer_ok inputs settings outputs w.

(** selected regions of a single opaque pixel, against layers of 2x2 *)
Definition files_dot (path : string) (flag : imread_flag) : option image :=
  if String.eqb path "regions.png" then Some [[px 255]] else files path flag.
Definition run_dot : result bool * world :=
  run_my_task files_dot writable "WARNING" trainer_ok inputs_staff settings0 outputs0 w0.
Definition args_dot : train_args :=
  {| input_image := Some base3;
     gt := <["staff" := [[true; true]; [true; true]]]>
           (<["background" := [[true; false]; [true; false]]]>
           (<["symbols" := [[true; true]; [false; false]]]> ∅));
     height := 256;
     width := 256;
     output_path := <["symbols" := "symbols.hdf5"]> (<["background" := "background.hdf5"]> ∅);
     epochs := 15;
     max_samples_per_class := 2000;
     batch_size := 16 |}.

(** staff and text both supplied, with a model slot each, and the same
    items in the opposite order *)
Definition files_text (path : string) (flag : imread_flag) : option image :=
  if String.eqb path "text.png" then Some top2 else files path flag.
Definition inputs_both : dict (list resource) :=
  inputs_staff ++ [(TEXT_LAYER, at_path "text.png")].
Definition outputs_both : dict (list resource) :=
  outputs0 ++ [(STAFF_MODEL, at_path "staff.hdf5"); (TEXT_MODEL, at_path "text.hdf5")].
Definition inputs_both_rev : dict (list resource) := rev inputs_both.
Definition outputs_both_rev : dict (list resource) := rev outputs_both.
Definition args_both : train_args :=
  {| input_image := Some base3;
     gt := <["text" := [[true; false]; [false; false]]]>
           (<["staff" := [[true; false]; [true; false]]]>
           (<["background" := [[true; false]; [true; false]]]>
           (<["symbols" := [[true; false]; [false; false]]]> ∅)));
     height := 256;
     width := 256;
     output_path := <["text" := "text.hdf5"]>
                    (<["staff" := "staff.hdf5"]>
                    (<["symbols" := "symbols.hdf5"]> (<["background" := "background.hdf5"]> ∅)));
     epochs := 15;
     max_samples_per_class := 2000;
     batch_size := 16 |}.

End Scenarios.

(** * Properties *)

(** ** The error monad *)

Lemma bind_ok {A B} (r : result A) (k : A -> result B) (b : B) :
  r ≫= k = Ok b <-> exists a, r = Ok a /\ k a = Ok b.
Proof.
  destruct r as [a|e]; simpl.
  - split; [intros H; exists a; auto | intros (a' & Ha & H); congruence].
  - split; [discriminate | intros (a' & Ha & _); discriminate].
Qed.

Ltac bind_inv H :=
  let a := fresh "a" in
  let E := fresh "E" in
  apply bind_ok in H; destruct H as (a & E & H).

Tactic Notation "bind_split" hyp(H) "as" ident(a) ident(E) :=
  apply bind_ok in H; destruct H as (a & E & H).

Lemma is_Some_both {A B} (x : option A) (y : option B) :
  (is_Some y -> is_Some x) -> (y = None -> x = None) -> (is_Some x <-> is_Some y).
Proof.
  destruct y as [b|]; intros Hyes Hno; split; intros Hsome; eauto.
  rewrite (Hno eq_refl) in Hsome. destruct Hsome; discriminate.
Qed.

(** ** Dictionaries *)

Lemma dict_get_keys {V} (d : dict V) (k : string) :
  k ∈ keys d <-> is_Some (dict_get d k).
Proof.
  induction d as [|[k' v] d IH]; simpl.
  - split; [intros H; inversion H | intros [x Hx]; discriminate].
  - destruct (String.eqb_spec k k') as [->|Hne].
    + split; [eauto | intros _; left].
    + rewrite <- IH. split.
      * intros H; inversion H; subst; [congruence | assumption].
      * intros H; right; assumption.
Qed.

Lemma getitem_ok {V} (d : dict V) (k : string) (v : V) :
  getitem d k = Ok v <-> dict_get d k = Some v.
Proof. unfold getitem; destruct (dict_get d k); split; congruence. Qed.

(** ** Arrays *)

Lemma nth_seq_map {B} (f : nat -> B) (n i : nat) (d : B) :
  i < n -> nth i (map f (seq 0 n)) d = f i.
Proof.
  intros Hi.
  rewrite (nth_indep _ d (f 0)) by (rewrite length_map, length_seq; exact Hi).
  rewrite (map_nth f (seq 0 n) 0 i), seq_nth by exact Hi. reflexivity.
Qed.

Lemma at2_tabulate2 (h w : nat) (f : nat -> nat -> bool) (i j : nat) :
  at2 (tabulate2 h w f) i j = if (i <? h) && (j <? w) then f i j else false.
Proof.
  unfold at2, tabulate2.
  destruct (Nat.ltb_spec i h) as [Hi|Hi]; simpl.
  - rewrite (nth_seq_map (fun i => map (fun j => f i j) (seq 0 w))) by exact Hi.
    destruct (Nat.ltb_spec j w) as [Hj|Hj].
    + apply (nth_seq_map (fun j => f i j)); exact Hj.
    + apply nth_overflow. rewrite length_map, length_seq. exact Hj.
  - rewrite (nth_overflow (map _ _)) by (rewrite length_map, length_seq; exact Hi).
    destruct j; reflexivity.
Qed.

(** Every true cell of a conjunction is true in both operands, read at the
    broadcast position. *)
Lemma logical_and_true (a b m : mask) (i j : nat) :
  logical_and a b = Ok m -> at2 m i j = true ->
  at2 a (bidx (nrows a) i) (bidx (ncols a) j) = true
  /\ at2 b (bidx (nrows b) i) (bidx (ncols b) j) = true.
Proof.
  unfold logical_and.
  destruct (broadcast_dim (nrows a) (nrows b)) as [h|]; [|discriminate].
  destruct (broadcast_dim (ncols a) (ncols b)) as [w|]; [|discriminate].
  intros [= <-]. rewrite at2_tabulate2.
  destruct ((i <? h) && (j <? w)); [|discriminate].
  intros H. apply andb_true_iff in H. exact H.
Qed.

Lemma bidx_same (n m i : nat) : n = m -> i < m -> bidx n i = i.
Proof.
  intros -> Hi. unfold bidx. destruct (Nat.eqb_spec m 1) as [->|]; [lia | reflexivity].
Qed.

Lemma logical_and_broadcastable (a b : mask) :
  logical_and a b = Raise ValueError <-> broadcastable a b = false.
Proof.
  unfold logical_and, broadcastable.
  destruct (broadcast_dim (nrows a) (nrows b)), (broadcast_dim (ncols a) (ncols b));
    split; congruence.
Qed.

Lemma logical_and_ok_broadcastable (a b m : mask) :
  logical_and a b = Ok m -> broadcastable a b = true.
Proof.
  unfold logical_and, broadcastable.
  destruct (broadcast_dim (nrows a) (nrows b)), (broadcast_dim (ncols a) (ncols b));
    congruence.
Qed.

Lemma logical_and_true_same_shape (a b m : mask) (i j : nat) :
  logical_and a b = Ok m -> shape a = shape b -> at2 m i j = true ->
  at2 a i j = true /\ at2 b i j = true.
Proof.
  unfold shape. intros Hand [= Hr Hc] Hm.
  pose proof (logical_and_true _ _ _ _ _ Hand Hm) as Htrue.
  unfold logical_and in Hand. rewrite Hr, Hc in Hand.
  unfold broadcast_dim in Hand. rewrite !Nat.eqb_refl in Hand.
  injection Hand as <-. rewrite at2_tabulate2 in Hm.
  destruct (Nat.ltb_spec i (nrows b)) as [Hi|Hi]; [|discriminate].
  destruct (Nat.ltb_spec j (ncols b)) as [Hj|Hj]; [|discriminate].
  rewrite (bidx_same (nrows a) (nrows b)), (bidx_same (ncols a) (ncols b)) in Htrue by assumption.
  rewrite (bidx_same (nrows b) (nrows b)), (bidx_same (ncols b) (ncols b)) in Htrue by auto.
  exact Htrue.
Qed.

Lemma logical_and_cell (a b m : mask) (i j : nat) :
  logical_and a b = Ok m -> shape a = shape b -> i < nrows b -> j < ncols b ->
  at2 m i j = at2 a i j && at2 b i j.
Proof.
  unfold shape. intros Hand [= Hr Hc] Hi Hj.
  unfold logical_and in Hand. rewrite Hr, Hc in Hand.
  unfold broadcast_dim in Hand. rewrite !Nat.eqb_refl in Hand.
  injection Hand as <-. rewrite at2_tabulate2.
  destruct (Nat.ltb_spec i (nrows b)) as [_|Hi']; [|lia].
  destruct (Nat.ltb_spec j (ncols b)) as [_|Hj']; [|lia].
  rewrite !(bidx_same _ (nrows b) i), !(bidx_same _ (ncols b) j) by auto.
  reflexivity.
Qed.

Lemma alpha_opaque_ok (a : option image) (m : mask) :
  alpha_opaque a = Ok m ->
  exists img, a = Some img /\ m = map (map (fun px => Z.eqb (nth 3 px 0%Z) 255)) img.
Proof.
  unfold alpha_opaque. destruct a as [img|]; [|discriminate].
  destruct (nchannels img <=? 3); [discriminate|].
  intros [= <-]. eauto.
Qed.

(** ** Loops over the keys of a port dictionary

    Both loops of [run_my_task] have the same shape: at key [K1] the entry
    [c1] is set, at key [K2] the entry [c2], and any other key is passed
    over. *)

Section OptionalLoop.

Context {V : Type}.
Variables (K1 K2 c1 c2 : string) (e1 e2 : result V).
Variable body : gmap string V -> string -> result (gmap string V).

Hypothesis body_step :
  forall g k g1, body g k = Ok g1 ->
    (k = K1 /\ exists v, e1 = Ok v /\ g1 = <[c1 := v]> g)
    \/ (k = K2 /\ exists v, e2 = Ok v /\ g1 = <[c2 := v]> g)
    \/ (k <> K1 /\ k <> K2 /\ g1 = g).
Hypothesis K_distinct : K1 <> K2.
Hypothesis c_distinct : c1 <> c2.

Lemma for_each_optional (ks : list string) (g g' : gmap string V) :
  for_each ks body g = Ok g' ->
  (forall c, c <> c1 -> c <> c2 -> g' !! c = g !! c)
  /\ (K1 ∈ ks -> exists v, e1 = Ok v /\ g' !! c1 = Some v)
  /\ (K1 ∉ ks -> g' !! c1 = g !! c1)
  /\ (K2 ∈ ks -> exists v, e2 = Ok v /\ g' !! c2 = Some v)
  /\ (K2 ∉ ks -> g' !! c2 = g !! c2).
Proof.
  revert g. induction ks as [|k ks IH]; intros g H; simpl in H.
  - injection H as <-. repeat split; try reflexivity; intros Hin; inversion Hin.
  - bind_inv H. destruct (IH _ H) as (Hoth & H1in & H1out & H2in & H2out).
    destruct (body_step _ _ _ E) as [(-> & v & Hv & ->)|[(-> & v & Hv & ->)|(Hk1 & Hk2 & ->)]].
    + repeat split.
      * intros c Hc1 Hc2. rewrite Hoth, lookup_insert_ne by auto. reflexivity.
      * intros _. destruct (decide (K1 ∈ ks)) as [Hin|Hout]; [auto|].
        exists v. rewrite H1out, lookup_insert_eq by exact Hout. auto.
      * intros Hout. exfalso. apply Hout. left.
      * intros Hin. apply elem_of_cons in Hin as [Heq|Hin]; [congruence | auto].
      * intros Hout. rewrite H2out, lookup_insert_ne by (auto; intros Hin; apply Hout; right; exact Hin).
        reflexivity.
    + repeat split.
      * intros c Hc1 Hc2. rewrite Hoth, lookup_insert_ne by auto. reflexivity.
      * intros Hin. apply elem_of_cons in Hin as [Heq|Hin]; [congruence | auto].
      * intros Hout. rewrite H1out, lookup_insert_ne by (auto; intros Hin; apply Hout; right; exact Hin).
        reflexivity.
      * intros _. destruct (decide (K2 ∈ ks)) as [Hin|Hout]; [auto|].
        exists v. rewrite H2out, lookup_insert_eq by exact Hout. auto.
      * intros Hout. exfalso. apply Hout. left.
    + repeat split.
      * exact Hoth.
      * intros Hin. apply elem_of_cons in Hin as [Heq|Hin]; [congruence | auto].
      * intros Hout. apply H1out. intros Hin. apply Hout. right. exact Hin.
      * intros Hin. apply elem_of_cons in Hin as [Heq|Hin]; [congruence | auto].
      * intros Hout. apply H2out. intros Hin. apply Hout. right. exact Hin.
Qed.

End OptionalLoop.

(** ** The derivation of the trainer's arguments *)

Section Derivation.

Variable imread : string -> imread_flag -> option image.
Variables (inputs outputs : dict (list resource)) (settings : gmap string Z).

Lemma optional_layer_step (regions_mask : mask) (g : gmap string mask) (k : string)
    (g1 : gmap string mask) :
  optional_layer imread inputs regions_mask g k = Ok g1 ->
  (k = STAFF_LAYER /\ exists v,
      restricted_mask imread inputs STAFF_LAYER regions_mask = Ok v /\ g1 = <["staff" := v]> g)
  \/ (k = TEXT_LAYER /\ exists v,
      restricted_mask imread inputs TEXT_LAYER regions_mask = Ok v /\ g1 = <["text" := v]> g)
  \/ (k <> STAFF_LAYER /\ k <> TEXT_LAYER /\ g1 = g).
Proof.
  unfold optional_layer, restricted_mask, layer_mask. intros H.
  bind_split H as g0 Hstaff.
  destruct (String.eqb_spec k STAFF_LAYER) as [->|Hs].
  - left. split; [reflexivity|].
    change (String.eqb STAFF_LAYER TEXT_LAYER) with false in H.
    injection H as <-.
    bind_split Hstaff as p Hp. bind_split Hstaff as lm Hlm. bind_split Hstaff as m Hm.
    injection Hstaff as <-.
    exists m. rewrite Hp. simpl. rewrite Hlm. simpl. auto.
  - injection Hstaff as <-.
    destruct (String.eqb_spec k TEXT_LAYER) as [->|Ht].
    + right; left. split; [reflexivity|].
      bind_split H as p Hp. bind_split H as lm Hlm. bind_split H as m Hm.
      injection H as <-.
      exists m. rewrite Hp. simpl. rewrite Hlm. simpl. auto.
    + right; right. injection H as <-. auto.
Qed.

Lemma optional_model_step (g : gmap string string) (k : string) (g1 : gmap string string) :
  optional_model outputs g k = Ok g1 ->
  (k = STAFF_MODEL /\ exists v, port_path outputs STAFF_MODEL = Ok v /\ g1 = <["staff" := v]> g)
  \/ (k = TEXT_MODEL /\ exists v, port_path outputs TEXT_MODEL = Ok v /\ g1 = <["text" := v]> g)
  \/ (k <> STAFF_MODEL /\ k <> TEXT_MODEL /\ g1 = g).
Proof.
  unfold optional_model. intros H.
  bind_split H as g0 Hstaff.
  destruct (String.eqb_spec k STAFF_MODEL) as [->|Hs].
  - left. split; [reflexivity|].
    change (String.eqb STAFF_MODEL TEXT_MODEL) with false in H.
    injection H as <-.
    bind_split Hstaff as p Hp. injection Hstaff as <-. eauto.
  - injection Hstaff as <-.
    destruct (String.eqb_spec k TEXT_MODEL) as [->|Ht].
    + right; left. split; [reflexivity|].
      bind_split H as p Hp. injection H as <-. eauto.
    + right; right. injection H as <-. auto.
Qed.

(** What a successful derivation went through, step by step. *)
Lemma prepare_inv (args : train_args) :
  prepare imread inputs settings outputs = Ok args ->
  exists p_image regions_mask notes_mask symbols background_mask p_background p_symbols,
    port_path inputs IMAGE = Ok p_image
    /\ input_image args = imread p_image IMREAD_COLOR
    /\ layer_mask imread inputs SELECTED_REGIONS = Ok regions_mask
    /\ layer_mask imread inputs SYMBOL_LAYER = Ok notes_mask
    /\ logical_and notes_mask regions_mask = Ok symbols
    /\ layer_mask imread inputs BACKGROUND_LAYER = Ok background_mask
    /\ for_each (keys inputs) (optional_layer imread inputs regions_mask)
         (<["background" := background_mask]> (<["symbols" := symbols]> ∅)) = Ok (gt args)
    /\ port_path outputs BACKGROUND_MODEL = Ok p_background
    /\ port_path outputs SYMBOL_MODEL = Ok p_symbols
    /\ for_each (keys outputs) (optional_model outputs)
         (<["symbols" := p_symbols]> (<["background" := p_background]> ∅)) = Ok (output_path args)
    /\ setting settings "Batch Size" = Ok (batch_size args)
    /\ setting settings "Patch height" = Ok (height args)
    /\ setting settings "Patch width" = Ok (width args)
    /\ setting settings "Maximum number of training epochs" = Ok (epochs args)
    /\ setting settings "Maximum number of samples per label" = Ok (max_samples_per_class args).
Proof.
  unfold prepare, layer_mask. intros H.
  bind_split H as p_image Himage.
  bind_split H as p_bg Hbg.
  bind_split H as p_notes Hnotes.
  bind_split H as p_regions Hregions.
  bind_split H as regions_mask Hrm.
  bind_split H as notes_mask Hnm.
  bind_split H as symbols Hsym.
  bind_split H as background_mask Hbm.
  bind_split H as bs Hbs.
  bind_split H as ph Hph.
  bind_split H as pw Hpw.
  bind_split H as ep Hep.
  bind_split H as ms Hms.
  bind_split H as p_background Hpb.
  bind_split H as p_symbols Hps.
  bind_split H as gt' Hgt.
  bind_split H as out' Hout.
  injection H as <-. simpl.
  exists p_image, regions_mask, notes_mask, symbols, background_mask, p_background, p_symbols.
  rewrite Hbg, Hnotes, Hregions. simpl.
  repeat split; assumption.
Qed.

(** The ground truth of a successful derivation, entry by entry. *)
Lemma prepare_gt (args : train_args) :
  prepare imread inputs settings outputs = Ok args ->
  exists regions_mask,
    layer_mask imread inputs SELECTED_REGIONS = Ok regions_mask
    /\ (exists m, layer_mask imread inputs BACKGROUND_LAYER = Ok m
                  /\ gt args !! "background" = Some m)
    /\ (exists m, restricted_mask imread inputs SYMBOL_LAYER regions_mask = Ok m
                  /\ gt args !! "symbols" = Some m)
    /\ (is_Some (dict_get inputs STAFF_LAYER) ->
        exists m, restricted_mask imread inputs STAFF_LAYER regions_mask = Ok m
                  /\ gt args !! "staff" = Some m)
    /\ (dict_get inputs STAFF_LAYER = None -> gt args !! "staff" = None)
    /\ (is_Some (dict_get inputs TEXT_LAYER) ->
        exists m, restricted_mask imread inputs TEXT_LAYER regions_mask = Ok m
                  /\ gt args !! "text" = Some m)
    /\ (dict_get inputs TEXT_LAYER = None -> gt args !! "text" = None)
    /\ (forall c, c <> "background" -> c <> "symbols" -> c <> "staff" -> c <> "text" ->
        gt args !! c = None).
Proof.
  intros H. apply prepare_inv in H.
  destruct H as (p_image & rm & nm & sym & bm & pb & ps & _ & _ & Hrm & Hnm & Hsym & Hbm
                 & Hloop & _).
  pose proof (for_each_optional STAFF_LAYER TEXT_LAYER "staff" "text" _ _ _
                (optional_layer_step rm) ltac:(discriminate) ltac:(discriminate)
                _ _ _ Hloop) as (Hoth & Hs_in & Hs_out & Ht_in & Ht_out).
  exists rm. split; [exact Hrm|].
  split; [|split; [|split; [|split; [|split; [|split]]]]].
  - exists bm. split; [exact Hbm|].
    rewrite Hoth by discriminate. apply lookup_insert_eq.
  - exists sym. split.
    + unfold restricted_mask. rewrite Hnm. exact Hsym.
    + rewrite Hoth by discriminate.
      rewrite lookup_insert_ne by discriminate. apply lookup_insert_eq.
  - intros Hin. apply dict_get_keys in Hin. exact (Hs_in Hin).
  - intros Hnone. rewrite Hs_out.
    + rewrite !lookup_insert_ne by discriminate. apply lookup_empty.
    + rewrite dict_get_keys, Hnone. intros [x Hx]; discriminate.
  - intros Hin. apply dict_get_keys in Hin. exact (Ht_in Hin).
  - intros Hnone. rewrite Ht_out.
    + rewrite !lookup_insert_ne by discriminate. apply lookup_empty.
    + rewrite dict_get_keys, Hnone. intros [x Hx]; discriminate.
  - intros c Hc1 Hc2 Hc3 Hc4. rewrite Hoth by assumption.
    rewrite !lookup_insert_ne by congruence. apply lookup_empty.
Qed.

(** The output paths of a successful derivation, entry by entry. *)
Lemma prepare_output_path (args : train_args) :
  prepare imread inputs settings outputs = Ok args ->
  (exists p, port_path outputs BACKGROUND_MODEL = Ok p
             /\ output_path args !! "background" = Some p)
  /\ (exists p, port_path outputs SYMBOL_MODEL = Ok p
                /\ output_path args !! "symbols" = Some p)
  /\ (is_Some (dict_get outputs STAFF_MODEL) ->
      exists p, port_path outputs STAFF_MODEL = Ok p /\ output_path args !! "staff" = Some p)
  /\ (dict_get outputs STAFF_MODEL = None -> output_path args !! "staff" = None)
  /\ (is_Some (dict_get outputs TEXT_MODEL) ->
      exists p, port_path outputs TEXT_MODEL = Ok p /\ output_path args !! "text" = Some p)
  /\ (dict_get outputs TEXT_MODEL = None -> output_path args !! "text" = None)
  /\ (forall c, c <> "background" -> c <> "symbols" -> c <> "staff" -> c <> "text" ->
      output_path args !! c = None).
Proof.
  intros H. apply prepare_inv in H.
  destruct H as (p_image & rm & nm & sym & bm & pb & ps & _ & _ & _ & _ & _ & _
                 & _ & Hpb & Hps & Hloop & _).
  pose proof (for_each_optional STAFF_MODEL TEXT_MODEL "staff" "text" _ _ _
                optional_model_step ltac:(discriminate) ltac:(discriminate)
                _ _ _ Hloop) as (Hoth & Hs_in & Hs_out & Ht_in & Ht_out).
  split; [|split; [|split; [|split; [|split; [|split]]]]].
  - exists pb. split; [exact Hpb|].
    rewrite Hoth by discriminate.
    rewrite lookup_insert_ne by discriminate. apply lookup_insert_eq.
  - exists ps. split; [exact Hps|].
    rewrite Hoth by discriminate. apply lookup_insert_eq.
  - intros Hin. apply dict_get_keys in Hin. exact (Hs_in Hin).
  - intros Hnone. rewrite Hs_out.
    + rewrite !lookup_insert_ne by discriminate. apply lookup_empty.
    + rewrite dict_get_keys, Hnone. intros [x Hx]; discriminate.
  - intros Hin. apply dict_get_keys in Hin. exact (Ht_in Hin).
  - intros Hnone. rewrite Ht_out.
    + rewrite !lookup_insert_ne by discriminate. apply lookup_empty.
    + rewrite dict_get_keys, Hnone. intros [x Hx]; discriminate.
  - intros c Hc1 Hc2 Hc3 Hc4. rewrite Hoth by assumption.
    rewrite !lookup_insert_ne by congruence. apply lookup_empty.
Qed.

(** The ground truth of a class other than background is the conjunction
    of its layer's alpha test with that of the selected regions. *)
Lemma prepare_restricted (args : train_args) (c port : string) (m : mask) :
  prepare imread inputs settings outputs = Ok args ->
  restricted_layer c = Some port ->
  gt args !! c = Some m ->
  exists layer regions_mask,
    layer_mask imread inputs port = Ok layer
    /\ layer_mask imread inputs SELECTED_REGIONS = Ok regions_mask
    /\ logical_and layer regions_mask = Ok m.
Proof.
  intros Hprep Hport Hm.
  destruct (prepare_gt _ Hprep)
    as (rm & Hrm & _ & (sym & Hsym & Hgsym) & Hs_in & Hs_out & Ht_in & Ht_out & _).
  assert (Hres : restricted_mask imread inputs port rm = Ok m).
  { unfold restricted_layer in Hport.
    destruct (String.eqb_spec c "symbols") as [->|_].
    { injection Hport as <-. congruence. }
    destruct (String.eqb_spec c "staff") as [->|_].
    { injection Hport as <-.
      destruct (dict_get inputs STAFF_LAYER) as [l|] eqn:Hl.
      - destruct (Hs_in ltac:(eauto)) as (m' & Hm' & Hg). congruence.
      - rewrite (Hs_out eq_refl) in Hm. discriminate. }
    destruct (String.eqb_spec c "text") as [->|_]; [|discriminate].
    injection Hport as <-.
    destruct (dict_get inputs TEXT_LAYER) as [l|] eqn:Hl.
    - destruct (Ht_in ltac:(eauto)) as (m' & Hm' & Hg). congruence.
    - rewrite (Ht_out eq_refl) in Hm. discriminate. }
  unfold restricted_mask in Hres. bind_split Hres as layer Hlayer.
  exists layer, rm. auto.
Qed.

(** A restricted layer that is supplied is in the ground truth. *)
Lemma prepare_supplied (args : train_args) (c port : string) (layer : mask) :
  prepare imread inputs settings outputs = Ok args ->
  restricted_layer c = Some port ->
  layer_mask imread inputs port = Ok layer ->
  is_Some (gt args !! c).
Proof.
  intros Hprep Hport Hlayer.
  assert (Hin : is_Some (dict_get inputs port)).
  { unfold layer_mask, port_path in Hlayer.
    bind_split Hlayer as p Hp. bind_split Hp as l Hl.
    apply getitem_ok in Hl. eauto. }
  destruct (prepare_gt _ Hprep)
    as (rm & Hrm & _ & (sym & Hsym & Hgsym) & Hs_in & _ & Ht_in & _).
  unfold restricted_layer in Hport.
  destruct (String.eqb_spec c "symbols") as [->|_]; [eauto|].
  destruct (String.eqb_spec c "staff") as [->|_].
  { injection Hport as <-. destruct (Hs_in Hin) as (m & _ & ->). eauto. }
  destruct (String.eqb_spec c "text") as [->|_]; [|discriminate].
  injection Hport as <-. destruct (Ht_in Hin) as (m & _ & ->). eauto.
Qed.

(** With the first inputs in place, a symbols layer that cannot be broadcast
    against the selected regions makes the derivation raise [ValueError]. *)
Lemma prepare_symbols_mismatch (p_image p_background : string) (layer regions_mask : mask) :
  port_path inputs IMAGE = Ok p_image ->
  port_path inputs BACKGROUND_LAYER = Ok p_background ->
  layer_mask imread inputs SYMBOL_LAYER = Ok layer ->
  layer_mask imread inputs SELECTED_REGIONS = Ok regions_mask ->
  broadcastable layer regions_mask = false ->
  prepare imread inputs settings outputs = Raise ValueError.
Proof.
  intros Himage Hbg Hlayer Hregions Hshape.
  unfold layer_mask in Hlayer, Hregions.
  bind_split Hlayer as p_notes Hnotes. bind_split Hregions as p_regions Hreg.
  unfold prepare. rewrite Himage, Hbg, Hnotes, Hreg. simpl.
  rewrite Hregions. simpl. rewrite Hlayer. simpl.
  apply logical_and_broadcastable in Hshape. rewrite Hshape. reflexivity.
Qed.

End Derivation.

(** ** The invocation as a whole *)

Section Invocation.

Variable imread : string -> imread_flag -> option image.
Variable can_open : string -> bool.
Variable rlevel : string.
Variable train_msae : train_args -> proc -> result bool * proc.
Variables (inputs outputs : dict (list resource)) (settings : gmap string Z).

Local Abbreviation run := (run_my_task imread can_open rlevel train_msae inputs settings outputs).
Local Abbreviation proxies := (LoggingProxy rlevel, LoggingProxy rlevel).

Lemma add_no_handlers (w : world) : with_process (add_handlers []) w = w.
Proof.
  destruct w as [[so se hs] t]. unfold with_process, add_handlers; simpl.
  rewrite app_nil_r. reflexivity.
Qed.

Lemma attach_log_handler_eq (w : world) :
  attach_log_handler can_open outputs w =
  match log_setup can_open outputs with
  | Ok hs => (Ok tt, with_process (add_handlers hs) w)
  | Raise e => (Raise e, w)
  end.
Proof.
  unfold attach_log_handler, log_setup, m_bind, lift, getitem.
  destruct (dict_get outputs LOG_FILE) as [[|r logs]|]; simpl.
  - rewrite add_no_handlers. reflexivity.
  - unfold newFileHandler. destruct (can_open (resource_path r)); reflexivity.
  - reflexivity.
Qed.

(** The whole of [run_my_task], case by case. *)
Lemma run_my_task_eq (w : world) :
  run w =
  let oldouts := (sys_stdout (process w), sys_stderr (process w)) in
  match log_setup can_open outputs with
  | Raise e => (Raise e, w)
  | Ok hs =>
      let p1 := set_streams proxies (add_handlers hs (process w)) in
      match prepare imread inputs settings outputs with
      | Raise e => (Raise e, {| process := set_streams oldouts p1; trace := trace w |})
      | Ok args =>
          match train_msae args p1 with
          | (Ok b, p') =>
              (Ok true,
               {| process := set_streams oldouts p';
                  trace := trace w ++ [TrainCall args p1 (Ok b); Printed (sys_stdout p') FINISHED] |})
          | (Raise e, p') =>
              (Raise e,
               {| process := set_streams oldouts p';
                  trace := trace w ++ [TrainCall args p1 (Raise e)] |})
          end
      end
  end.
Proof.
  unfold run_my_task, m_bind. rewrite attach_log_handler_eq.
  destruct (log_setup can_open outputs) as [hs|e]; [|reflexivity].
  unfold try_finally, task_body, m_bind, redirect_stdouts_to_logger, lift; simpl.
  destruct (prepare imread inputs settings outputs) as [args|e]; [|reflexivity].
  unfold call_trainer; simpl.
  destruct (train_msae args _) as [[b|e] p']; simpl; [|reflexivity].
  rewrite <- app_assoc. reflexivity.
Qed.

(** What an invocation adds to the trace: nothing when it raises before the
    trainer's call, otherwise the call, followed by the printed line when
    the trainer returned. *)
Lemma run_my_task_inv (w : world) (r : result bool) (w' : world) :
  run w = (r, w') ->
  exists new, trace w' = trace w ++ new /\
    ((exists e, r = Raise e /\ new = []
        /\ (log_setup can_open outputs = Raise e
            \/ prepare imread inputs settings outputs = Raise e))
     \/ (exists hs args o p',
           log_setup can_open outputs = Ok hs
           /\ prepare imread inputs settings outputs = Ok args
           /\ train_msae args (set_streams proxies (add_handlers hs (process w))) = (o, p')
           /\ new = TrainCall args (set_streams proxies (add_handlers hs (process w))) o
                    :: match o with
                       | Ok _ => [Printed (sys_stdout p') FINISHED]
                       | Raise _ => []
                       end
           /\ r = match o with Ok _ => Ok true | Raise e => Raise e end)).
Proof.
  rewrite run_my_task_eq. cbv zeta.
  destruct (log_setup can_open outputs) as [hs|e] eqn:Hlog.
  - destruct (prepare imread inputs settings outputs) as [args|e] eqn:Hprep.
    + destruct (train_msae args _) as [[b|e] p'] eqn:Htrain; intros [= <- <-]; simpl;
        eexists; (split; [reflexivity|]); right;
        exists hs, args; eexists; exists p'; repeat split; eauto.
    + intros [= <- <-]; simpl. exists []. rewrite app_nil_r. split; [reflexivity|].
      left. exists e. auto.
  - intros [= <- <-]. exists []. rewrite app_nil_r. split; [reflexivity|].
    left. exists e. auto.
Qed.

(** The trainer is called with the derived arguments and with nothing else. *)
Lemma called_with_prepared (w : world) (r : result bool) (w' : world)
    (new : list event) (args : train_args) :
  run w = (r, w') -> trace w' = trace w ++ new -> In args (trainer_calls new) ->
  prepare imread inputs settings outputs = Ok args.
Proof.
  intros Hrun Htrace Hin.
  destruct (run_my_task_inv _ _ _ Hrun) as (new' & Htrace' & Hcases).
  rewrite Htrace in Htrace'. apply app_inv_head in Htrace'. subst new'.
  destruct Hcases as [(e & _ & -> & _)|(hs & args' & o & p' & _ & Hprep & _ & -> & _)].
  - destruct Hin.
  - destruct o; simpl in Hin; destruct Hin as [<-|[]]; exact Hprep.
Qed.

(** C4: on every exit path of an invocation (it returned, or it raised in the
    log setup, in the derivation or in the trainer) [sys.stdout] and
    [sys.stderr] are bound to what they were bound to on entry. *)
Theorem streams_restored_on_every_exit (w : world) (r : result bool) (w' : world) :
  run w = (r, w') ->
  sys_stdout (process w') = sys_stdout (process w)
  /\ sys_stderr (process w') = sys_stderr (process w).
Proof.
  rewrite run_my_task_eq. cbv zeta.
  destruct (log_setup can_open outputs) as [hs|e].
  - destruct (prepare imread inputs settings outputs) as [args|e].
    + destruct (train_msae args _) as [[b|e] p']; intros [= <- <-]; split; reflexivity.
    + intros [= <- <-]; split; reflexivity.
  - intros [= <- <-]; split; reflexivity.
Qed.

(** C5, as the code has it: the stream bindings are restored on every exit
    path, but the file handler attached on entry is never detached.  With a
    trainer that leaves the logger's handlers alone, the handlers after the
    invocation are those before it followed by the handlers attached in the
    log setup; they equal the handlers before entry only when none was
    attached. *)
Theorem attached_handler_is_kept (w : world) (r : result bool) (w' : world) :
  (forall args p, logger_handlers (snd (train_msae args p)) = logger_handlers p) ->
  run w = (r, w') ->
  logger_handlers (process w') =
    logger_handlers (process w)
    ++ match log_setup can_open outputs with Ok hs => hs | Raise _ => [] end
  /\ sys_stdout (process w') = sys_stdout (process w)
  /\ sys_stderr (process w') = sys_stderr (process w).
Proof.
  intros Hkeeps. rewrite run_my_task_eq. cbv zeta.
  destruct (log_setup can_open outputs) as [hs|e].
  - destruct (prepare imread inputs settings outputs) as [args|e].
    + destruct (train_msae args _) as [o p'] eqn:Htrain.
      pose proof (Hkeeps args (set_streams proxies (add_handlers hs (process w)))) as Hk.
      rewrite Htrain in Hk. simpl in Hk.
      destruct o; intros [= <- <-]; simpl; rewrite Hk; auto.
    + intros [= <- <-]; simpl; auto.
  - intros [= <- <-]. rewrite app_nil_r. auto.
Qed.

(** C8, as the code has it: when a log destination was requested and the
    file handler cannot be opened, the exception leaves the invocation at
    once: nothing is redirected, no handler is attached, the trainer is not
    called, and the process is as it was on entry. *)
Theorem unwritable_log_aborts (w : world) (res : resource) (rest : list resource) :
  dict_get outputs LOG_FILE = Some (res :: rest) ->
  can_open (resource_path res) = false ->
  run w = (Raise (IOError (resource_path res)), w).
Proof.
  intros Hlog Hopen. rewrite run_my_task_eq. cbv zeta.
  unfold log_setup. rewrite Hlog, Hopen. reflexivity.
Qed.

(** C10: with an empty list in the log-file slot no handler is attached and
    nothing is raised for it; the streams are redirected into the logger and
    the invocation goes on to the derivation and, when that yields the
    arguments, to the trainer's call, which is made with both streams bound
    to the logging proxy and the logger's handlers as they were on entry. *)
Theorem empty_log_slot_is_tolerated (w : world) (r : result bool) (w' : world) :
  dict_get outputs LOG_FILE = Some [] ->
  run w = (r, w') ->
  attach_log_handler can_open outputs w = (Ok tt, w)
  /\ match prepare imread inputs settings outputs with
     | Ok args =>
         exists o rest,
           trace w' = trace w ++
             TrainCall args
               {| sys_stdout := LoggingProxy rlevel;
                  sys_stderr := LoggingProxy rlevel;
                  logger_handlers := logger_handlers (process w) |} o :: rest
     | Raise e => r = Raise e /\ trace w' = trace w
     end.
Proof.
  intros Hlog. rewrite run_my_task_eq, attach_log_handler_eq. cbv zeta.
  unfold log_setup. rewrite Hlog. rewrite add_no_handlers.
  unfold set_streams, add_handlers; simpl. rewrite app_nil_r.
  destruct (prepare imread inputs settings outputs) as [args|e].
  - destruct (train_msae args _) as [[b|e] p']; intros [= <- <-];
      (split; [reflexivity|]); simpl; eauto.
  - intros [= <- <-]. auto.
Qed.

(** C3, where the code departs from the claim: whatever status the trainer
    returns, also the failure signal [False], the invocation returns [True];
    the status is bound to a name and never read.  The trainer is called
    once and not again. *)
Theorem trainer_status_is_discarded (w : world) (r : result bool) (w' : world)
    (new : list event) (args : train_args) (p : proc) (status : bool) :
  run w = (r, w') ->
  trace w' = trace w ++ new ->
  In (TrainCall args p (Ok status)) new ->
  r = Ok true /\ trainer_calls new = [args].
Proof.
  intros Hrun Htrace Hin.
  destruct (run_my_task_inv _ _ _ Hrun) as (new' & Htrace' & Hcases).
  rewrite Htrace in Htrace'. apply app_inv_head in Htrace'. subst new'.
  destruct Hcases as [(e & _ & -> & _)|(hs & args' & o & p' & _ & _ & _ & -> & ->)].
  - destruct Hin.
  - destruct o as [b|e]; simpl in Hin.
    + destruct Hin as [[= <- <- <-]|[[=]|[]]]. auto.
    + destruct Hin as [[=]|[]].
Qed.

(** C1, as the code has it: the two mappings passed to the trainer are
    filled independently.  An optional class is in the ground-truth mapping
    exactly when its annotation layer was supplied, and in the output-path
    mapping exactly when its model slot was requested; so with the staff
    layer supplied and no staff model slot, 'staff' is in the ground truth
    and not among the output paths. *)
Theorem optional_classes_are_decided_per_side (w : world) (r : result bool) (w' : world)
    (new : list event) (args : train_args) :
  run w = (r, w') ->
  trace w' = trace w ++ new ->
  In args (trainer_calls new) ->
  (is_Some (gt args !! "staff") <-> is_Some (dict_get inputs STAFF_LAYER))
  /\ (is_Some (output_path args !! "staff") <-> is_Some (dict_get outputs STAFF_MODEL))
  /\ (is_Some (gt args !! "text") <-> is_Some (dict_get inputs TEXT_LAYER))
  /\ (is_Some (output_path args !! "text") <-> is_Some (dict_get outputs TEXT_MODEL)).
Proof.
  intros Hrun Htrace Hin.
  pose proof (called_with_prepared _ _ _ _ _ Hrun Htrace Hin) as Hprep.
  destruct (prepare_gt _ _ _ _ _ Hprep)
    as (rm & _ & _ & _ & Hs_in & Hs_out & Ht_in & Ht_out & _).
  destruct (prepare_output_path _ _ _ _ _ Hprep)
    as (_ & _ & Hos_in & Hos_out & Hot_in & Hot_out & _).
  split; [|split; [|split]]; apply is_Some_both; try assumption.
  - intros Hsome. destruct (Hs_in Hsome) as (m & _ & ->). eauto.
  - intros Hsome. destruct (Hos_in Hsome) as (m & _ & ->). eauto.
  - intros Hsome. destruct (Ht_in Hsome) as (m & _ & ->). eauto.
  - intros Hsome. destruct (Hot_in Hsome) as (m & _ & ->). eauto.
Qed.

(** C6, as the code has it: for every class among symbols, staff and text
    that the trainer is given, the ground truth is numpy's conjunction of
    the class layer's alpha test with the selection mask (the alpha test of
    the selected-regions layer).  Every pixel true in it is true in the
    selection mask at the position numpy broadcasts from; that is the
    pixel's own position when the two layers have the same shape, and then
    each cell of the ground truth is the [&&] of the two cells.  With
    selected regions of extent 1 along an axis the class layer may be
    larger, and the ground truth then has true pixels where the selection
    mask has no pixel. *)
Theorem ground_truth_inside_selection (w : world) (r : result bool) (w' : world)
    (new : list event) (args : train_args) (c port : string) (m : mask) :
  run w = (r, w') ->
  trace w' = trace w ++ new ->
  In args (trainer_calls new) ->
  restricted_layer c = Some port ->
  gt args !! c = Some m ->
  exists layer selection,
    layer_mask imread inputs port = Ok layer
    /\ layer_mask imread inputs SELECTED_REGIONS = Ok selection
    /\ logical_and layer selection = Ok m
    /\ (forall i j, at2 m i j = true ->
          at2 selection (bidx (nrows selection) i) (bidx (ncols selection) j) = true)
    /\ (shape layer = shape selection ->
          forall i j,
            (at2 m i j = true -> at2 selection i j = true)
            /\ (i < nrows selection -> j < ncols selection ->
                at2 m i j = at2 layer i j && at2 selection i j)).
Proof.
  intros Hrun Htrace Hin Hport Hm.
  pose proof (called_with_prepared _ _ _ _ _ Hrun Htrace Hin) as Hprep.
  destruct (prepare_restricted imread inputs outputs settings _ _ _ _ Hprep Hport Hm)
    as (layer & selection & Hlayer & Hsel & Hand).
  exists layer, selection.
  split; [exact Hlayer|]. split; [exact Hsel|]. split; [exact Hand|]. split.
  - intros i j Hij. exact (proj2 (logical_and_true _ _ _ _ _ Hand Hij)).
  - intros Hshape i j. split.
    + intros Hij. exact (proj2 (logical_and_true_same_shape _ _ _ _ _ Hand Hshape Hij)).
    + intros Hi Hj. exact (logical_and_cell _ _ _ _ _ Hand Hshape Hi Hj).
Qed.

(** C7: the ground truth of the background class is the background layer's
    alpha test and nothing more: each cell is [alpha == 255] of the layer's
    own pixel, with no conjunction against the selection mask. *)
Theorem background_is_alpha_test_alone (w : world) (r : result bool) (w' : world)
    (new : list event) (args : train_args) :
  run w = (r, w') ->
  trace w' = trace w ++ new ->
  In args (trainer_calls new) ->
  exists p background,
    port_path inputs BACKGROUND_LAYER = Ok p
    /\ imread p IMREAD_UNCHANGED = Some background
    /\ gt args !! "background" =
         Some (map (map (fun px => Z.eqb (nth 3 px 0%Z) 255)) background).
Proof.
  intros Hrun Htrace Hin.
  pose proof (called_with_prepared _ _ _ _ _ Hrun Htrace Hin) as Hprep.
  destruct (prepare_gt _ _ _ _ _ Hprep) as (rm & _ & (m & Hm & Hg) & _).
  unfold layer_mask in Hm. bind_split Hm as p Hp.
  apply alpha_opaque_ok in Hm as (background & Hread & ->).
  exists p, background. auto.
Qed.

(** C2, as the code has it: no dimensions are compared as such.  What fails
    is numpy's conjunction of a class layer with the selected regions: when
    the symbols layer, or a supplied staff or text layer, cannot be
    broadcast against the selected-regions layer (on some axis the extents
    differ and neither is 1), the invocation raises and makes no call of the
    trainer; for the symbols layer, once the log setup and the first two
    input lookups are through, the exception is numpy's [ValueError]. *)
Theorem unbroadcastable_layer_aborts (w : world) (r : result bool) (w' : world)
    (c port : string) (layer selection : mask) :
  restricted_layer c = Some port ->
  layer_mask imread inputs port = Ok layer ->
  layer_mask imread inputs SELECTED_REGIONS = Ok selection ->
  broadcastable layer selection = false ->
  run w = (r, w') ->
  is_raise r = true
  /\ trace w' = trace w
  /\ (c = "symbols" ->
      forall hs p_image p_background,
        log_setup can_open outputs = Ok hs ->
        port_path inputs IMAGE = Ok p_image ->
        port_path inputs BACKGROUND_LAYER = Ok p_background ->
        r = Raise ValueError).
Proof.
  intros Hport Hlayer Hsel Hshape Hrun.
  assert (Hfails : forall args, prepare imread inputs settings outputs <> Ok args).
  { intros args Hprep.
    destruct (prepare_supplied imread inputs outputs settings _ _ _ _ Hprep Hport Hlayer) as [m Hm].
    destruct (prepare_restricted imread inputs outputs settings _ _ _ _ Hprep Hport Hm)
      as (layer' & selection' & Hlayer' & Hsel' & Hand).
    apply logical_and_ok_broadcastable in Hand. congruence. }
  destruct (run_my_task_inv _ _ _ Hrun) as (new & Htrace & Hcases).
  destruct Hcases as [(e & -> & -> & Hwhy)|(hs & args & o & p' & _ & Hprep & _)].
  - rewrite app_nil_r in Htrace. repeat split; try assumption.
    intros -> hs p_image p_background Hlog Himage Hbg.
    injection Hport as <-.
    rewrite (prepare_symbols_mismatch _ _ _ _ _ _ _ _ Himage Hbg Hlayer Hsel Hshape) in Hwhy.
    destruct Hwhy as [Hwhy|Hwhy]; congruence.
  - destruct (Hfails _ Hprep).
Qed.

(** C9, as the code has it: an invocation calls the trainer at most once,
    and exactly once unless it raises before the call (every invocation that
    returns has made exactly one call).  The call passes the base image, the
    patch height and width, the sample cap, the epoch cap and the batch size
    of the settings, a ground-truth mapping with background, symbols and
    each optional class whose layer was supplied, and an output-path mapping
    with background, symbols and each optional class whose model slot was
    requested, each at the path of its slot.  The two mappings have the same
    classes only when layer and slot of every optional class go together. *)
Theorem one_call_with_derived_arguments (w : world) (r : result bool) (w' : world)
    (new : list event) :
  run w = (r, w') ->
  trace w' = trace w ++ new ->
  (is_raise r = true /\ trainer_calls new = [])
  \/ exists args,
       trainer_calls new = [args]
       /\ (exists p, port_path inputs IMAGE = Ok p /\ input_image args = imread p IMREAD_COLOR)
       /\ setting settings "Patch height" = Ok (height args)
       /\ setting settings "Patch width" = Ok (width args)
       /\ setting settings "Maximum number of samples per label" = Ok (max_samples_per_class args)
       /\ setting settings "Maximum number of training epochs" = Ok (epochs args)
       /\ setting settings "Batch Size" = Ok (batch_size args)
       /\ (forall c, is_Some (gt args !! c) <->
              c = "background" \/ c = "symbols"
              \/ (c = "staff" /\ is_Some (dict_get inputs STAFF_LAYER))
              \/ (c = "text" /\ is_Some (dict_get inputs TEXT_LAYER)))
       /\ (forall c, is_Some (output_path args !! c) <->
              c = "background" \/ c = "symbols"
              \/ (c = "staff" /\ is_Some (dict_get outputs STAFF_MODEL))
              \/ (c = "text" /\ is_Some (dict_get outputs TEXT_MODEL)))
       /\ (forall c p, output_path args !! c = Some p ->
              exists port, model_port c = Some port /\ port_path outputs port = Ok p).
Proof.
  intros Hrun Htrace.
  destruct (run_my_task_inv _ _ _ Hrun) as (new' & Htrace' & Hcases).
  rewrite Htrace in Htrace'. apply app_inv_head in Htrace'. subst new'.
  destruct Hcases as [(e & -> & -> & _)|(hs & args & o & p' & _ & Hprep & _ & -> & _)].
  { left. auto. }
  right. exists args. split; [destruct o; reflexivity|].
  destruct (prepare_inv _ _ _ _ _ Hprep)
    as (p_image & _ & _ & _ & _ & _ & _ & Himage & Hin_image & _ & _ & _ & _ & _ & _ & _ & _
        & Hbs & Hph & Hpw & Hep & Hms).
  destruct (prepare_gt _ _ _ _ _ Hprep)
    as (rm & _ & (bm & _ & Hgb) & (sym & _ & Hgs) & Hs_in & Hs_out & Ht_in & Ht_out & Hg_oth).
  destruct (prepare_output_path _ _ _ _ _ Hprep)
    as ((pb & Hpb & Hob) & (ps & Hps & Hos) & Hos_in & Hos_out & Hot_in & Hot_out & Ho_oth).
  split; [eauto|]. do 5 (split; [assumption|]).
  split; [|split].
  - intros c. split.
    + intros Hsome.
      destruct (decide (c = "background")) as [->|Hb]; [auto|].
      destruct (decide (c = "symbols")) as [->|Hsy]; [auto|].
      destruct (decide (c = "staff")) as [->|Hst].
      { right; right; left. split; [reflexivity|].
        destruct (dict_get inputs STAFF_LAYER); [eauto|].
        rewrite (Hs_out eq_refl) in Hsome. destruct Hsome; discriminate. }
      destruct (decide (c = "text")) as [->|Hte].
      { right; right; right. split; [reflexivity|].
        destruct (dict_get inputs TEXT_LAYER); [eauto|].
        rewrite (Ht_out eq_refl) in Hsome. destruct Hsome; discriminate. }
      rewrite Hg_oth in Hsome by assumption. destruct Hsome; discriminate.
    + intros [->|[->|[[-> Hin]|[-> Hin]]]]; [eauto|eauto| |].
      * destruct (Hs_in Hin) as (m & _ & ->). eauto.
      * destruct (Ht_in Hin) as (m & _ & ->). eauto.
  - intros c. split.
    + intros Hsome.
      destruct (decide (c = "background")) as [->|Hb]; [auto|].
      destruct (decide (c = "symbols")) as [->|Hsy]; [auto|].
      destruct (decide (c = "staff")) as [->|Hst].
      { right; right; left. split; [reflexivity|].
        destruct (dict_get outputs STAFF_MODEL); [eauto|].
        rewrite (Hos_out eq_refl) in Hsome. destruct Hsome; discriminate. }
      destruct (decide (c = "text")) as [->|Hte].
      { right; right; right. split; [reflexivity|].
        destruct (dict_get outputs TEXT_MODEL); [eauto|].
        rewrite (Hot_out eq_refl) in Hsome. destruct Hsome; discriminate. }
      rewrite Ho_oth in Hsome by assumption. destruct Hsome; discriminate.
    + intros [->|[->|[[-> Hin]|[-> Hin]]]]; [eauto|eauto| |].
      * destruct (Hos_in Hin) as (m & _ & ->). eauto.
      * destruct (Hot_in Hin) as (m & _ & ->). eauto.
  - intros c p Hcp.
    destruct (decide (c = "background")) as [->|Hb].
    { exists BACKGROUND_MODEL. split; [reflexivity|congruence]. }
    destruct (decide (c = "symbols")) as [->|Hsy].
    { exists SYMBOL_MODEL. split; [reflexivity|congruence]. }
    destruct (decide (c = "staff")) as [->|Hst].
    { exists STAFF_MODEL. split; [reflexivity|].
      destruct (dict_get outputs STAFF_MODEL) eqn:Hd.
      - destruct (Hos_in ltac:(eauto)) as (q & Hq & Hoq). congruence.
      - rewrite (Hos_out eq_refl) in Hcp. discriminate. }
    destruct (decide (c = "text")) as [->|Hte].
    { exists TEXT_MODEL. split; [reflexivity|].
      destruct (dict_get outputs TEXT_MODEL) eqn:Hd.
      - destruct (Hot_in ltac:(eauto)) as (q & Hq & Hoq). congruence.
      - rewrite (Hot_out eq_refl) in Hcp. discriminate. }
    rewrite Ho_oth in Hcp by assumption. discriminate.
Qed.

End Invocation.

(** ** The properties on concrete invocations *)

Import Examples.

Example run_plain_ok :
  run_plain trainer_ok =
  (Ok true,
   {| process := {| sys_stdout := Stream "<stdout>"; sys_stderr := Stream "<stderr>";
                    logger_handlers := [log_handler] |};
      trace := [TrainCall args0 p_call (Ok true);
                Printed (LoggingProxy "WARNING") FINISHED] |}).
Proof. vm_compute. reflexivity. Qed.

Example run_staff_ok : trainer_calls (trace (snd run_staff)) = [args_staff].
Proof. vm_compute. reflexivity. Qed.


(** *** C1 *)

(** The staff layer is supplied, no staff model slot is requested, and the
    trainer is handed a ground truth that contains 'staff'. *)
Lemma staff_layer_without_slot_is_planned :
  dict_get inputs_staff STAFF_LAYER = Some (at_path "staff.png")
  /\ dict_get outputs0 STAFF_MODEL = None
  /\ trainer_calls (trace (snd run_staff)) = [args_staff]
  /\ gt args_staff !! "staff" = Some [[true; false]; [true; false]]
  /\ output_path args_staff !! "staff" = None.
Proof. vm_compute. repeat split; reflexivity. Qed.

Lemma optional_classes_are_decided_per_side_witness :
  (is_Some (gt args_staff !! "staff") <-> is_Some (dict_get inputs_staff STAFF_LAYER))
  /\ (is_Some (output_path args_staff !! "staff") <-> is_Some (dict_get outputs0 STAFF_MODEL))
  /\ (is_Some (gt args_staff !! "text") <-> is_Some (dict_get inputs_staff TEXT_LAYER))
  /\ (is_Some (output_path args_staff !! "text") <-> is_Some (dict_get outputs0 TEXT_MODEL)).
Proof.
  apply (optional_classes_are_decided_per_side files writable "WARNING" trainer_ok
           inputs_staff outputs0 settings0 w0 (fst run_staff) (snd run_staff)
           (trace (snd run_staff)) args_staff).
  - reflexivity.
  - reflexivity.
  - vm_compute. left. reflexivity.
Defined.

(** *** C2 *)

(** The base image is 3x3, the symbols layer and every other layer 2x2, and
    the invocation returns [True] after calling the trainer. *)
Lemma mismatched_base_image_is_accepted :
  files "image.png" IMREAD_COLOR = Some base3
  /\ files "symbols.png" IMREAD_UNCHANGED = Some top2
  /\ shape base3 = (3, 3)
  /\ shape top2 = (2, 2)
  /\ fst (run_plain trainer_ok) = Ok true
  /\ trainer_calls (trace (snd (run_plain trainer_ok))) = [args0].
Proof. vm_compute. repeat split; reflexivity. Qed.

Lemma unbroadcastable_layer_aborts_witness :
  broadcastable [[true; true; true]; [false; false; false]] [[true; false]; [true; false]] = false
  /\ fst run_wide = Raise ValueError
  /\ trace (snd run_wide) = [].
Proof.
  destruct (unbroadcastable_layer_aborts files writable "WARNING" trainer_ok
              inputs_wide outputs0 settings0 w0 (fst run_wide) (snd run_wide)
              "symbols" SYMBOL_LAYER
              [[true; true; true]; [false; false; false]] [[true; false]; [true; false]])
    as (_ & Htrace & Hvalue).
  - reflexivity.
  - reflexivity.
  - reflexivity.
  - reflexivity.
  - reflexivity.
  - split; [reflexivity|]. split; [|exact Htrace].
    apply (Hvalue eq_refl [log_handler] "image.png" "background.png"); reflexivity.
Defined.

(** *** C3 *)

Lemma trainer_status_is_discarded_witness :
  trainer_failed args0 p_call = (Ok false, p_call)
  /\ fst (run_plain trainer_failed) = Ok true
  /\ trainer_calls (trace (snd (run_plain trainer_failed))) = [args0].
Proof.
  split; [reflexivity|].
  apply (trainer_status_is_discarded files writable "WARNING" trainer_failed
           inputs0 outputs0 settings0 w0 (fst (run_plain trainer_failed))
           (snd (run_plain trainer_failed)) (trace (snd (run_plain trainer_failed)))
           args0 p_call false).
  - reflexivity.
  - reflexivity.
  - vm_compute. left. reflexivity.
Defined.

(** *** C4 *)

Lemma streams_restored_on_every_exit_witness :
  fst (run_plain trainer_crash) = Raise (TrainerError 1)
  /\ sys_stdout (process (snd (run_plain trainer_crash))) = Stream "<stdout>"
  /\ sys_stderr (process (snd (run_plain trainer_crash))) = Stream "<stderr>".
Proof.
  split; [reflexivity|].
  apply (streams_restored_on_every_exit files writable "WARNING" trainer_crash
           inputs0 outputs0 settings0 w0 (fst (run_plain trainer_crash))
           (snd (run_plain trainer_crash))).
  reflexivity.
Defined.

(** *** C5 *)

(** The logger had no handler before the invocation and has the file
    handler of the log output after it. *)
Lemma file_handler_outlives_invocation :
  logger_handlers (process w0) = []
  /\ fst (run_plain trainer_ok) = Ok true
  /\ logger_handlers (process (snd (run_plain trainer_ok))) = [log_handler]
  /\ logger_handlers (process (snd (run_plain trainer_ok))) <> logger_handlers (process w0).
Proof. vm_compute. repeat split; try reflexivity. discriminate. Qed.

Lemma attached_handler_is_kept_witness :
  logger_handlers (process (snd (run_plain trainer_ok))) = [] ++ [log_handler]
  /\ sys_stdout (process (snd (run_plain trainer_ok))) = Stream "<stdout>"
  /\ sys_stderr (process (snd (run_plain trainer_ok))) = Stream "<stderr>".
Proof.
  apply (attached_handler_is_kept files writable "WARNING" trainer_ok
           inputs0 outputs0 settings0 w0 (fst (run_plain trainer_ok))
           (snd (run_plain trainer_ok))).
  - intros args p. reflexivity.
  - reflexivity.
Defined.

(** *** C8 *)

(** A log destination is requested, the file cannot be opened, and the
    invocation raises without calling the trainer. *)
Lemma unwritable_log_stops_training :
  dict_get outputs0 LOG_FILE = Some (at_path "log.txt")
  /\ unwritable "log.txt" = false
  /\ fst run_unwritable = Raise (IOError "log.txt")
  /\ trainer_calls (trace (snd run_unwritable)) = [].
Proof. vm_compute. repeat split; reflexivity. Qed.

Lemma unwritable_log_aborts_witness :
  run_unwritable = (Raise (IOError "log.txt"), w0).
Proof.
  apply (unwritable_log_aborts files unwritable "WARNING" trainer_ok
           inputs0 outputs0 settings0 w0 {| resource_path := "log.txt" |} []).
  - reflexivity.
  - reflexivity.
Defined.

(** *** C6 *)

Lemma ground_truth_inside_selection_witness :
  exists layer selection,
    layer_mask files inputs_staff STAFF_LAYER = Ok layer
    /\ layer_mask files inputs_staff SELECTED_REGIONS = Ok selection
    /\ logical_and layer selection = Ok [[true; false]; [true; false]]
    /\ (forall i j, at2 [[true; false]; [true; false]] i j = true ->
          at2 selection (bidx (nrows selection) i) (bidx (ncols selection) j) = true)
    /\ (shape layer = shape selection ->
          forall i j,
            (at2 [[true; false]; [true; false]] i j = true -> at2 selection i j = true)
            /\ (i < nrows selection -> j < ncols selection ->
                at2 [[true; false]; [true; false]] i j = at2 layer i j && at2 selection i j)).
Proof.
  apply (ground_truth_inside_selection files writable "WARNING" trainer_ok
           inputs_staff outputs0 settings0 w0 (fst run_staff) (snd run_staff)
           (trace (snd run_staff)) args_staff "staff" STAFF_LAYER).
  - reflexivity.
  - reflexivity.
  - vm_compute. left. reflexivity.
  - reflexivity.
  - reflexivity.
Defined.

(** The selected regions are a single opaque pixel and the staff layer is
    2x2: numpy stretches the selection, the trainer is handed a staff mask
    that is true at row 1, column 1, and the selection mask has no such
    pixel. *)
Lemma ground_truth_outside_one_pixel_selection :
  Scenarios.files_dot "regions.png" IMREAD_UNCHANGED = Some [[px 255]]
  /\ layer_mask Scenarios.files_dot inputs_staff SELECTED_REGIONS = Ok [[true]]
  /\ trainer_calls (trace (snd Scenarios.run_dot)) = [Scenarios.args_dot]
  /\ gt Scenarios.args_dot !! "staff" = Some [[true; true]; [true; true]]
  /\ at2 [[true; true]; [true; true]] 1 1 = true
  /\ at2 [[true]] 1 1 = false.
Proof. vm_compute. repeat split; reflexivity. Qed.

(** *** C7 *)

Lemma background_is_alpha_test_alone_witness :
  exists p background,
    port_path inputs0 BACKGROUND_LAYER = Ok p
    /\ files p IMREAD_UNCHANGED = Some background
    /\ gt args0 !! "background" =
         Some (map (map (fun px => Z.eqb (nth 3 px 0%Z) 255)) background).
Proof.
  apply (background_is_alpha_test_alone files writable "WARNING" trainer_ok
           inputs0 outputs0 settings0 w0 (fst (run_plain trainer_ok))
           (snd (run_plain trainer_ok)) (trace (snd (run_plain trainer_ok))) args0).
  - reflexivity.
  - reflexivity.
  - vm_compute. left. reflexivity.
Defined.

(** *** C9 *)

(** With the staff layer supplied and no staff model slot, the one call has
    a ground truth over three classes and output paths for two; and an
    invocation that raises in the derivation makes no call at all. *)
Lemma ground_truth_and_paths_differ :
  trainer_calls (trace (snd run_staff)) = [args_staff]
  /\ dom (gt args_staff) <> dom (output_path args_staff)
  /\ fst run_wide = Raise ValueError
  /\ trainer_calls (trace (snd run_wide)) = [].
Proof.
  split; [vm_compute; reflexivity|].
  split; [|split; vm_compute; reflexivity].
  intros Hdom.
  assert (Hstaff : "staff" ∈ dom (gt args_staff)).
  { apply elem_of_dom. exists [[true; false]; [true; false]]. reflexivity. }
  rewrite Hdom in Hstaff. apply elem_of_dom in Hstaff as [p Hp].
  vm_compute in Hp. discriminate.
Qed.

Lemma one_call_with_derived_arguments_witness :
  exists args,
    trainer_calls (trace (snd run_staff)) = [args]
    /\ (forall c, is_Some (gt args !! c) <->
           c = "background" \/ c = "symbols"
           \/ (c = "staff" /\ is_Some (dict_get inputs_staff STAFF_LAYER))
           \/ (c = "text" /\ is_Some (dict_get inputs_staff TEXT_LAYER)))
    /\ (forall c, is_Some (output_path args !! c) <->
           c = "background" \/ c = "symbols"
           \/ (c = "staff" /\ is_Some (dict_get outputs0 STAFF_MODEL))
           \/ (c = "text" /\ is_Some (dict_get outputs0 TEXT_MODEL))).
Proof.
  destruct (one_call_with_derived_arguments files writable "WARNING" trainer_ok
              inputs_staff outputs0 settings0 w0 (fst run_staff) (snd run_staff)
              (trace (snd run_staff)))
    as [[Hraise _]|(args & Hcalls & _ & _ & _ & _ & _ & _ & Hgt & Hout & _)].
  - reflexivity.
  - reflexivity.
  - vm_compute in Hraise. discriminate.
  - exists args. auto.
Defined.

(** *** C10 *)

Lemma empty_log_slot_is_tolerated_witness :
  dict_get outputs_nolog LOG_FILE = Some []
  /\ attach_log_handler writable outputs_nolog w0 = (Ok tt, w0)
  /\ exists o rest,
       trace (snd run_nolog) =
         TrainCall args0
           {| sys_stdout := LoggingProxy "WARNING";
              sys_stderr := LoggingProxy "WARNING";
              logger_handlers := [] |} o :: rest.
Proof.
  split; [reflexivity|].
  destruct (empty_log_slot_is_tolerated files writable "WARNING" trainer_ok
              inputs0 outputs_nolog settings0 w0 (fst run_nolog) (snd run_nolog))
    as [Hattach Hcall].
  - reflexivity.
  - reflexivity.
  - split; [exact Hattach|].
    assert (Hprep : prepare files inputs0 settings0 outputs_nolog = Ok args0)
      by (vm_compute; reflexivity).
    rewrite Hprep in Hcall. exact Hcall.
Defined.

(** * Further properties of [run_my_task] *)

(** ** The course of an invocation *)

Section Course.

Variable imread : string -> imread_flag -> option image.
Variable can_open : string -> bool.
Variable rlevel : string.
Variable train_msae : train_args -> proc -> result bool * proc.
Variables (inputs outputs : dict (list resource)) (settings : gmap string Z).

Local Abbreviation run := (run_my_task imread can_open rlevel train_msae inputs settings outputs).
Local Abbreviation proxies := (LoggingProxy rlevel, LoggingProxy rlevel).

(** The events of an invocation, with the world they lead to. *)
Lemma run_my_task_events (w : world) (r : result bool) (w' : world) (new : list event) :
  run w = (r, w') -> trace w' = trace w ++ new ->
  (exists e, r = Raise e /\ new = []
      /\ (log_setup can_open outputs = Raise e
          \/ prepare imread inputs settings outputs = Raise e))
  \/ (exists hs args o p',
        log_setup can_open outputs = Ok hs
        /\ prepare imread inputs settings outputs = Ok args
        /\ train_msae args (set_streams proxies (add_handlers hs (process w))) = (o, p')
        /\ new = TrainCall args (set_streams proxies (add_handlers hs (process w))) o
                 :: match o with
                    | Ok _ => [Printed (sys_stdout p') FINISHED]
                    | Raise _ => []
                    end
        /\ r = match o with Ok _ => Ok true | Raise e => Raise e end).
Proof.
  intros Hrun Htrace.
  destruct (run_my_task_inv _ _ _ _ _ _ _ _ _ _ Hrun) as (new' & Htrace' & Hcases).
  rewrite Htrace in Htrace'. apply app_inv_head in Htrace'. subst new'. exact Hcases.
Qed.

(** The trainer is called after the log setup and the redirection: at its
    call both streams are bound to the logging proxy at the configured
    level, the logger has the handlers it had on entry followed by the one
    the log setup attached, and the outcome on record is the trainer's. *)
Theorem trainer_called_after_redirection (w : world) (r : result bool) (w' : world)
    (new : list event) (args : train_args) (p : proc) (o : result bool) :
  run w = (r, w') ->
  trace w' = trace w ++ new ->
  In (TrainCall args p o) new ->
  sys_stdout p = LoggingProxy rlevel
  /\ sys_stderr p = LoggingProxy rlevel
  /\ logger_handlers p =
       logger_handlers (process w)
       ++ match log_setup can_open outputs with Ok hs => hs | Raise _ => [] end
  /\ fst (train_msae args p) = o.
Proof.
  intros Hrun Htrace Hin.
  destruct (run_my_task_events _ _ _ _ Hrun Htrace)
    as [(e & _ & -> & _)|(hs & args' & o' & p' & Hlog & _ & Htrain & -> & _)].
  - destruct Hin.
  - rewrite Hlog.
    assert (Hcall : TrainCall args p o
                    = TrainCall args' (set_streams proxies (add_handlers hs (process w))) o').
    { destruct o'; simpl in Hin; destruct Hin as [Heq|Hin]; try (symmetry; exact Heq).
      - destruct Hin as [[=]|[]].
      - destruct Hin. }
    injection Hcall as -> -> ->. rewrite Htrain. auto.
Qed.

(** An invocation never returns [False]: it returns [True] or raises, and
    it returns [True] exactly when the trainer was called and came back
    with a status, whichever. *)
Theorem returns_true_or_raises (w : world) (r : result bool) (w' : world)
    (new : list event) :
  run w = (r, w') ->
  trace w' = trace w ++ new ->
  r <> Ok false
  /\ (r = Ok true <-> exists args p status, In (TrainCall args p (Ok status)) new).
Proof.
  intros Hrun Htrace.
  destruct (run_my_task_events _ _ _ _ Hrun Htrace)
    as [(e & -> & -> & _)|(hs & args & o & p' & _ & _ & _ & -> & ->)].
  - split; [discriminate|]. split; [discriminate|]. intros (args & p & status & []).
  - destruct o as [b|e].
    + split; [discriminate|]. split; [|reflexivity].
      intros _. eexists _, _, b. left. reflexivity.
    + split; [discriminate|]. split; [discriminate|].
      intros (args' & p & status & [[=]|[]]).
Qed.

(** An exception raised by the trainer leaves the invocation unchanged: the
    invocation raises that very exception, the call is its only event (it
    is not repeated and nothing is printed after it). *)
Theorem trainer_exception_propagates (w : world) (r : result bool) (w' : world)
    (new : list event) (args : train_args) (p : proc) (e : exn) :
  run w = (r, w') ->
  trace w' = trace w ++ new ->
  In (TrainCall args p (Raise e)) new ->
  r = Raise e /\ new = [TrainCall args p (Raise e)].
Proof.
  intros Hrun Htrace Hin.
  destruct (run_my_task_events _ _ _ _ Hrun Htrace)
    as [(e' & _ & -> & _)|(hs & args' & o & p' & _ & _ & _ & -> & ->)].
  - destruct Hin.
  - destruct o as [b|e']; simpl in Hin.
    + destruct Hin as [[=]|[[=]|[]]].
    + destruct Hin as [[= <- <- <-]|[]]. auto.
Qed.

(** The one line an invocation prints is the finishing line.  With a
    trainer that leaves [sys.stdout] alone it is written while the stream is
    still redirected, so it goes to the logging proxy and not to the stream
    of before the invocation; and it is printed exactly when the invocation
    returns [True]. *)
Theorem finishing_line_goes_to_the_logger (w : world) (r : result bool) (w' : world)
    (new : list event) :
  (forall args p, sys_stdout (snd (train_msae args p)) = sys_stdout p) ->
  run w = (r, w') ->
  trace w' = trace w ++ new ->
  (forall out text, In (Printed out text) new ->
     text = FINISHED /\ out = LoggingProxy rlevel)
  /\ (r = Ok true <-> In (Printed (LoggingProxy rlevel) FINISHED) new).
Proof.
  intros Hkeeps Hrun Htrace.
  destruct (run_my_task_events _ _ _ _ Hrun Htrace)
    as [(e & -> & -> & _)|(hs & args & o & p' & _ & _ & Htrain & -> & ->)].
  - split; [intros out text []|]. split; [discriminate|intros []].
  - pose proof (Hkeeps args (set_streams proxies (add_handlers hs (process w)))) as Hout.
    rewrite Htrain in Hout. simpl in Hout.
    destruct o as [b|e]; simpl.
    + rewrite Hout. split.
      * intros out text [[=]|[[= <- <-]|[]]]. auto.
      * split; [intros _; right; left; reflexivity | reflexivity].
    + split.
      * intros out text [[=]|[]].
      * split; [discriminate | intros [[=]|[]]].
Qed.

(** Without a 'Log File' key among the outputs the invocation raises
    [KeyError] for it at once, before the [try]: nothing is redirected, no
    file is read, and the process is as it was on entry. *)
Theorem missing_log_slot_raises_key_error (w : world) :
  dict_get outputs LOG_FILE = None ->
  run w = (Raise (KeyError LOG_FILE), w).
Proof.
  intros Hlog. rewrite run_my_task_eq. cbv zeta.
  unfold log_setup. rewrite Hlog. reflexivity.
Qed.

End Course.

(** ** When the loops and the derivation go through *)

Section OptionalLoopRun.

Context {V : Type}.
Variables (K1 K2 c1 c2 : string) (e1 e2 : result V).
Variable body : gmap string V -> string -> result (gmap string V).

Hypothesis body_eq :
  forall g k,
    body g k =
    (if String.eqb k K1 then e1 ≫= (fun v => Ok (<[c1 := v]> g)) else Ok g) ≫= (fun g1 =>
     if String.eqb k K2 then e2 ≫= (fun v => Ok (<[c2 := v]> g1)) else Ok g1).

(** A loop raises only what one of its two lookups raises, at a key that is
    in the dictionary. *)
Lemma for_each_raises (ks : list string) (g : gmap string V) (e : exn) :
  for_each ks body g = Raise e ->
  (K1 ∈ ks /\ e1 = Raise e) \/ (K2 ∈ ks /\ e2 = Raise e).
Proof.
  revert g. induction ks as [|k ks IH]; intros g H; simpl in H; [discriminate|].
  destruct (body g k) as [g1|e'] eqn:Hbody; simpl in H.
  - destruct (IH _ H) as [[Hin He]|[Hin He]]; [left|right]; split; auto; right; exact Hin.
  - injection H as ->. rewrite body_eq in Hbody.
    destruct (String.eqb_spec k K1) as [->|_].
    + destruct e1 as [v|e1'] eqn:He1; simpl in Hbody.
      * destruct (String.eqb_spec K1 K2) as [->|_]; [|discriminate].
        destruct e2 as [v2|e2']; simpl in Hbody; [discriminate|].
        right. split; [left | congruence].
      * left. split; [left | congruence].
    + simpl in Hbody. destruct (String.eqb_spec k K2) as [->|_]; [|discriminate].
      destruct e2 as [v2|e2']; simpl in Hbody; [discriminate|].
      right. split; [left | congruence].
Qed.

(** A loop goes through when the lookups it will make go through. *)
Lemma for_each_runs (ks : list string) (g : gmap string V) :
  (K1 ∈ ks -> is_raise e1 = false) ->
  (K2 ∈ ks -> is_raise e2 = false) ->
  exists g', for_each ks body g = Ok g'.
Proof.
  intros H1 H2. destruct (for_each ks body g) as [g'|e] eqn:Hloop; [eauto|].
  destruct (for_each_raises _ _ _ Hloop) as [[Hin He]|[Hin He]].
  - rewrite He in H1. specialize (H1 Hin). discriminate.
  - rewrite He in H2. specialize (H2 Hin). discriminate.
Qed.

End OptionalLoopRun.

Lemma for_each_ext {S} (ks : list string) (body body' : S -> string -> result S) (s : S) :
  (forall s k, body s k = body' s k) -> for_each ks body s = for_each ks body' s.
Proof.
  intros Hext. revert s. induction ks as [|k ks IH]; intros s; simpl; [reflexivity|].
  rewrite Hext. destruct (body' s k); simpl; auto.
Qed.

Section DerivationRuns.

Variable imread : string -> imread_flag -> option image.
Variables (inputs outputs : dict (list resource)) (settings : gmap string Z).

Lemma optional_layer_eq (regions_mask : mask) (g : gmap string mask) (k : string) :
  optional_layer imread inputs regions_mask g k =
  (if String.eqb k STAFF_LAYER
   then restricted_mask imread inputs STAFF_LAYER regions_mask
          ≫= (fun v => Ok (<["staff" := v]> g))
   else Ok g) ≫= (fun g1 =>
   if String.eqb k TEXT_LAYER
   then restricted_mask imread inputs TEXT_LAYER regions_mask
          ≫= (fun v => Ok (<["text" := v]> g1))
   else Ok g1).
Proof.
  unfold optional_layer, restricted_mask, layer_mask.
  destruct (String.eqb k STAFF_LAYER).
  - destruct (port_path inputs STAFF_LAYER) as [p|e]; simpl; [|reflexivity].
    destruct (alpha_opaque (imread p IMREAD_UNCHANGED)) as [lm|e]; simpl; [|reflexivity].
    destruct (logical_and lm regions_mask) as [m|e]; simpl; [|reflexivity].
    destruct (String.eqb k TEXT_LAYER); [|reflexivity].
    destruct (port_path inputs TEXT_LAYER) as [p'|e]; simpl; [|reflexivity].
    destruct (alpha_opaque (imread p' IMREAD_UNCHANGED)) as [lm'|e]; simpl; [|reflexivity].
    destruct (logical_and lm' regions_mask); reflexivity.
  - simpl. destruct (String.eqb k TEXT_LAYER); [|reflexivity].
    destruct (port_path inputs TEXT_LAYER) as [p'|e]; simpl; [|reflexivity].
    destruct (alpha_opaque (imread p' IMREAD_UNCHANGED)) as [lm'|e]; simpl; [|reflexivity].
    destruct (logical_and lm' regions_mask); reflexivity.
Qed.

Lemma optional_model_eq (g : gmap string string) (k : string) :
  optional_model outputs g k =
  (if String.eqb k STAFF_MODEL
   then port_path outputs STAFF_MODEL ≫= (fun v => Ok (<["staff" := v]> g))
   else Ok g) ≫= (fun g1 =>
   if String.eqb k TEXT_MODEL
   then port_path outputs TEXT_MODEL ≫= (fun v => Ok (<["text" := v]> g1))
   else Ok g1).
Proof. reflexivity. Qed.

(** The converse of [prepare_inv]: when every step goes through, so does the
    derivation, with the arguments the steps yield. *)
Lemma prepare_runs (p_image : string) (regions_mask notes_mask symbols background_mask : mask)
    (bs ph pw ep ms : Z) (p_background p_symbols : string)
    (g : gmap string mask) (o : gmap string string) :
  port_path inputs IMAGE = Ok p_image ->
  layer_mask imread inputs BACKGROUND_LAYER = Ok background_mask ->
  layer_mask imread inputs SYMBOL_LAYER = Ok notes_mask ->
  layer_mask imread inputs SELECTED_REGIONS = Ok regions_mask ->
  logical_and notes_mask regions_mask = Ok symbols ->
  setting settings "Batch Size" = Ok bs ->
  setting settings "Patch height" = Ok ph ->
  setting settings "Patch width" = Ok pw ->
  setting settings "Maximum number of training epochs" = Ok ep ->
  setting settings "Maximum number of samples per label" = Ok ms ->
  port_path outputs BACKGROUND_MODEL = Ok p_background ->
  port_path outputs SYMBOL_MODEL = Ok p_symbols ->
  for_each (keys inputs) (optional_layer imread inputs regions_mask)
    (<["background" := background_mask]> (<["symbols" := symbols]> ∅)) = Ok g ->
  for_each (keys outputs) (optional_model outputs)
    (<["symbols" := p_symbols]> (<["background" := p_background]> ∅)) = Ok o ->
  prepare imread inputs settings outputs =
  Ok {| input_image := imread p_image IMREAD_COLOR;
        gt := g;
        height := ph;
        width := pw;
        output_path := o;
        epochs := ep;
        max_samples_per_class := ms;
        batch_size := bs |}.
Proof.
  unfold layer_mask. intros Himage Hbg Hnotes Hregions Hsym Hbs Hph Hpw Hep Hms Hpb Hps Hg Ho.
  bind_split Hbg as p_bg Hpbg. bind_split Hnotes as p_notes Hpnotes.
  bind_split Hregions as p_regions Hpregions.
  unfold prepare.
  rewrite Himage, Hpbg, Hpnotes, Hpregions. simpl.
  rewrite Hregions. simpl. rewrite Hnotes. simpl. rewrite Hsym. simpl.
  rewrite Hbg. simpl. rewrite Hbs, Hph, Hpw, Hep, Hms. simpl.
  rewrite Hpb, Hps. simpl. rewrite Hg. simpl. rewrite Ho. reflexivity.
Qed.

End DerivationRuns.

(** ** Dictionaries that respect the declarations *)

Lemma port_path_first (d : dict (list resource)) (port : string) (r : resource)
    (rest : list resource) :
  dict_get d port = Some (r :: rest) -> port_path d port = Ok (resource_path r).
Proof. intros H. unfold port_path, getitem. rewrite H. reflexivity. Qed.

Lemma port_path_ok (d : dict (list resource)) (port p : string) :
  port_path d port = Ok p <->
  exists r rest, dict_get d port = Some (r :: rest) /\ p = resource_path r.
Proof.
  unfold port_path, getitem. destruct (dict_get d port) as [[|r rest]|]; simpl.
  - split; [discriminate | intros (r & rest & [=] & _)].
  - split; [intros [= <-]; eauto | intros (r' & rest' & [= <- <-] & ->); reflexivity].
  - split; [discriminate | intros (r & rest & [=] & _)].
Qed.

Lemma no_empty_slot_get (d : dict (list resource)) (k : string) (l : list resource) :
  no_empty_slot d = true -> dict_get d k = Some l -> exists r rest, l = r :: rest.
Proof.
  unfold no_empty_slot. induction d as [|[k' l'] d IH]; simpl; [discriminate|].
  intros Hall Hget. apply andb_true_iff in Hall as [Hhere Hrest].
  destruct (String.eqb k k').
  - injection Hget as ->. destruct l as [|r rest]; [discriminate | eauto].
  - auto.
Qed.

Lemma conforms_required (pts : list Port.t) (d : dict (list resource)) (pt : Port.t) :
  conforms pts d = true -> In pt pts -> 1 <= Port.minimum pt ->
  exists r rest, dict_get d (Port.name pt) = Some (r :: rest).
Proof.
  unfold conforms. intros Hc Hin Hmin. apply andb_true_iff in Hc as [Hall _].
  rewrite forallb_forall in Hall. specialize (Hall _ Hin).
  unfold within, supplied in Hall. apply andb_true_iff in Hall as [Hlo _].
  apply Nat.leb_le in Hlo.
  destruct (dict_get d (Port.name pt)) as [[|r rest]|]; simpl in Hlo; try lia. eauto.
Qed.

Lemma conforms_present (pts : list Port.t) (d : dict (list resource)) (k : string) :
  conforms pts d = true -> k ∈ keys d -> exists r rest, dict_get d k = Some (r :: rest).
Proof.
  unfold conforms. intros Hc Hin. apply andb_true_iff in Hc as [_ Hslots].
  apply dict_get_keys in Hin as [l Hl].
  destruct (no_empty_slot_get _ _ _ Hslots Hl) as (r & rest & ->). eauto.
Qed.

Lemma valid_settings_get (settings : gmap string Z) (pr : Setting.t) :
  valid_settings settings = true -> In pr settings_properties ->
  exists v, setting settings (Setting.name pr) = Ok v /\ in_range pr v = true.
Proof.
  unfold valid_settings. rewrite forallb_forall. intros Hall Hin.
  specialize (Hall _ Hin). unfold setting.
  destruct (settings !! Setting.name pr) as [v|]; [eauto | discriminate].
Qed.

(** ** Masks of layers of one size *)

Lemma alpha_opaque_rgba (img : image) :
  4 <= nchannels img ->
  exists m, alpha_opaque (Some img) = Ok m /\ shape m = shape img.
Proof.
  intros Hc. unfold alpha_opaque.
  destruct (Nat.leb_spec (nchannels img) 3) as [Hle|_]; [lia|].
  eexists. split; [reflexivity|].
  unfold shape, nrows, ncols. rewrite length_map.
  destruct img as [|row img]; simpl; [reflexivity|]. rewrite length_map. reflexivity.
Qed.

Lemma logical_and_same_shape (a b : mask) :
  shape a = shape b -> exists m, logical_and a b = Ok m.
Proof.
  unfold shape. intros [= Hr Hc]. unfold logical_and, broadcast_dim.
  rewrite Hr, Hc, !Nat.eqb_refl. eauto.
Qed.

Ltac declared table i Hc :=
  apply (conforms_required table _
           (nth i table {| Port.name := ""; Port.minimum := 0; Port.maximum := 0;
                           Port.resource_types := [] |}) Hc);
  [simpl; auto 10 | simpl; lia].

(** ** Invocations that respect the declarations *)

Section Service.

Variable imread : string -> imread_flag -> option image.
Variable can_open : string -> bool.
Variable rlevel : string.
Variable train_msae : train_args -> proc -> result bool * proc.
Variables (inputs outputs : dict (list resource)) (settings : gmap string Z).

Local Abbreviation run := (run_my_task imread can_open rlevel train_msae inputs settings outputs).

(** With every layer an RGBA image of one size, the alpha test of a
    supplied layer goes through and has that size. *)
Lemma layer_mask_fits (rows cols : nat) (port : string) (r : resource) (rest : list resource) :
  (forall port r rest,
     dict_get inputs port = Some (r :: rest) -> port <> IMAGE ->
     exists img, imread (resource_path r) IMREAD_UNCHANGED = Some img
                 /\ 4 <= nchannels img /\ shape img = (rows, cols)) ->
  dict_get inputs port = Some (r :: rest) -> port <> IMAGE ->
  exists m, layer_mask imread inputs port = Ok m /\ shape m = (rows, cols).
Proof.
  intros Hlayers Hget Hport.
  destruct (Hlayers _ _ _ Hget Hport) as (img & Hread & Hch & Hshape).
  destruct (alpha_opaque_rgba img Hch) as (m & Hm & Hsh).
  exists m. unfold layer_mask. rewrite (port_path_first _ _ _ _ Hget). simpl.
  rewrite Hread. split; [exact Hm | congruence].
Qed.

(** The derivation goes through on dictionaries that respect the port
    declarations, with valid settings and RGBA layers of one size. *)
Lemma prepare_conforming (rows cols : nat) :
  conforms input_port_types inputs = true ->
  conforms output_port_types outputs = true ->
  valid_settings settings = true ->
  (forall port r rest,
     dict_get inputs port = Some (r :: rest) -> port <> IMAGE ->
     exists img, imread (resource_path r) IMREAD_UNCHANGED = Some img
                 /\ 4 <= nchannels img /\ shape img = (rows, cols)) ->
  exists args, prepare imread inputs settings outputs = Ok args.
Proof.
  intros Hin Hout Hset Hlayers.
  assert (Himage : exists r rest, dict_get inputs IMAGE = Some (r :: rest))
    by declared input_port_types 0 Hin.
  assert (Hbg : exists r rest, dict_get inputs BACKGROUND_LAYER = Some (r :: rest))
    by declared input_port_types 1 Hin.
  assert (Hsym : exists r rest, dict_get inputs SYMBOL_LAYER = Some (r :: rest))
    by declared input_port_types 2 Hin.
  assert (Hreg : exists r rest, dict_get inputs SELECTED_REGIONS = Some (r :: rest))
    by declared input_port_types 3 Hin.
  assert (Hpb : exists r rest, dict_get outputs BACKGROUND_MODEL = Some (r :: rest))
    by declared output_port_types 0 Hout.
  assert (Hps : exists r rest, dict_get outputs SYMBOL_MODEL = Some (r :: rest))
    by declared output_port_types 1 Hout.
  destruct Himage as (r_i & ? & Himage), Hbg as (r_b & ? & Hbg), Hsym as (r_s & ? & Hsym),
    Hreg as (r_r & ? & Hreg), Hpb as (r_pb & ? & Hpb), Hps as (r_ps & ? & Hps).
  destruct (layer_mask_fits rows cols _ _ _ Hlayers Hbg ltac:(discriminate)) as (bm & Hbm & _).
  destruct (layer_mask_fits rows cols _ _ _ Hlayers Hsym ltac:(discriminate))
    as (nm & Hnm & Hnm_shape).
  destruct (layer_mask_fits rows cols _ _ _ Hlayers Hreg ltac:(discriminate))
    as (rm & Hrm & Hrm_shape).
  destruct (logical_and_same_shape nm rm ltac:(congruence)) as (sym & Hand).
  assert (Hget : forall i, i < 5 ->
            exists v, setting settings
                        (Setting.name (nth i settings_properties
                                         {| Setting.name := ""; Setting.minimum := 0;
                                            Setting.maximum := None; Setting.default := 0 |}))
                      = Ok v).
  { intros i Hi.
    destruct (valid_settings_get settings
                (nth i settings_properties
                   {| Setting.name := ""; Setting.minimum := 0;
                      Setting.maximum := None; Setting.default := 0 |}) Hset)
      as (v & Hv & _); [|eauto].
    apply nth_In. simpl. exact Hi. }
  destruct (Hget 0 ltac:(lia)) as (bs & Hbs), (Hget 1 ltac:(lia)) as (ep & Hep),
    (Hget 2 ltac:(lia)) as (ms & Hms), (Hget 3 ltac:(lia)) as (ph & Hph),
    (Hget 4 ltac:(lia)) as (pw & Hpw).
  simpl in Hbs, Hep, Hms, Hph, Hpw.
  assert (Hoptional : forall port,
            port <> IMAGE -> port ∈ keys inputs ->
            is_raise (restricted_mask imread inputs port rm) = false).
  { intros port Hport Hkey.
    destruct (conforms_present _ _ _ Hin Hkey) as (r & rest & Hget').
    destruct (layer_mask_fits rows cols _ _ _ Hlayers Hget' Hport) as (lm & Hlm & Hlm_shape).
    destruct (logical_and_same_shape lm rm ltac:(congruence)) as (m & Hm).
    unfold restricted_mask. rewrite Hlm. simpl. rewrite Hm. reflexivity. }
  destruct (for_each_runs STAFF_LAYER TEXT_LAYER "staff" "text" _ _ _
              (optional_layer_eq imread inputs rm) (keys inputs)
              (<["background" := bm]> (<["symbols" := sym]> ∅)))
    as (g & Hg).
  { apply Hoptional. discriminate. }
  { apply Hoptional. discriminate. }
  assert (Hslot : forall port, port ∈ keys outputs -> is_raise (port_path outputs port) = false).
  { intros port Hkey.
    destruct (conforms_present _ _ _ Hout Hkey) as (r & rest & Hget').
    rewrite (port_path_first _ _ _ _ Hget'). reflexivity. }
  destruct (for_each_runs STAFF_MODEL TEXT_MODEL "staff" "text" _ _ _
              (optional_model_eq outputs) (keys outputs)
              (<["symbols" := resource_path r_ps]> (<["background" := resource_path r_pb]> ∅)))
    as (o & Ho); [apply Hslot | apply Hslot |].
  eexists.
  apply (prepare_runs imread inputs outputs settings (resource_path r_i) rm nm sym bm
           bs ph pw ep ms (resource_path r_pb) (resource_path r_ps) g o);
    eauto using port_path_first.
Qed.

(** An invocation that respects the declarations reaches the trainer: with
    port dictionaries within the declared cardinalities, settings within
    their bounds, every supplied layer an RGBA image of one size and a log
    file that can be opened, the trainer is called exactly once, and the
    invocation returns [True] unless the trainer itself raises. *)
Theorem conforming_invocation_reaches_trainer (rows cols : nat) (w : world)
    (r : result bool) (w' : world) (new : list event) :
  conforms input_port_types inputs = true ->
  conforms output_port_types outputs = true ->
  valid_settings settings = true ->
  (forall port r rest,
     dict_get inputs port = Some (r :: rest) -> port <> IMAGE ->
     exists img, imread (resource_path r) IMREAD_UNCHANGED = Some img
                 /\ 4 <= nchannels img /\ shape img = (rows, cols)) ->
  (forall r rest,
     dict_get outputs LOG_FILE = Some (r :: rest) -> can_open (resource_path r) = true) ->
  run w = (r, w') ->
  trace w' = trace w ++ new ->
  exists args p o,
    In (TrainCall args p o) new
    /\ trainer_calls new = [args]
    /\ r = match o with Ok _ => Ok true | Raise e => Raise e end.
Proof.
  intros Hin Hout Hset Hlayers Hopen Hrun Htrace.
  destruct (prepare_conforming rows cols Hin Hout Hset Hlayers) as (args & Hprep).
  assert (Hlog : exists r rest, dict_get outputs LOG_FILE = Some (r :: rest))
    by declared output_port_types 2 Hout.
  destruct Hlog as (r_log & rest & Hlog).
  assert (Hsetup : is_raise (log_setup can_open outputs) = false).
  { unfold log_setup. rewrite Hlog, (Hopen _ _ Hlog). reflexivity. }
  destruct (run_my_task_events _ _ _ _ _ _ _ _ _ _ _ Hrun Htrace)
    as [(e & _ & _ & [Hfail|Hfail])|(hs & args' & o & p' & _ & _ & _ & -> & ->)].
  - rewrite Hfail in Hsetup. discriminate.
  - congruence.
  - eexists args', _, o. split; [left; reflexivity|]. split; [destruct o|]; reflexivity.
Qed.

End Service.

(** ** What stops an invocation before the trainer *)

Section Refusals.

Variable imread : string -> imread_flag -> option image.
Variable can_open : string -> bool.
Variable rlevel : string.
Variable train_msae : train_args -> proc -> result bool * proc.
Variables (inputs outputs : dict (list resource)) (settings : gmap string Z).

Local Abbreviation run := (run_my_task imread can_open rlevel train_msae inputs settings outputs).

(** When the derivation cannot go through, the invocation raises and the
    trainer is not called. *)
Lemma no_derivation_no_call (w : world) (r : result bool) (w' : world) :
  (forall args, prepare imread inputs settings outputs <> Ok args) ->
  run w = (r, w') ->
  is_raise r = true /\ trace w' = trace w.
Proof.
  intros Hfails Hrun.
  destruct (run_my_task_inv _ _ _ _ _ _ _ _ _ _ Hrun) as (new & Htrace & Hcases).
  destruct Hcases as [(e & -> & -> & _)|(hs & args & o & p' & _ & Hprep & _)].
  - rewrite app_nil_r in Htrace. auto.
  - destruct (Hfails _ Hprep).
Qed.


(** The declared defaults are not filled in by the job: when a declared
    property is missing from the settings, the invocation raises and the
    trainer is not called. *)
Theorem missing_setting_is_fatal (w : world) (r : result bool) (w' : world)
    (pr : Setting.t) :
  In pr settings_properties ->
  settings !! Setting.name pr = None ->
  run w = (r, w') ->
  is_raise r = true /\ trace w' = trace w.
Proof.
  intros Hin Hnone. apply no_derivation_no_call. intros args Hprep.
  destruct (prepare_inv _ _ _ _ _ Hprep)
    as (_ & _ & _ & _ & _ & _ & _ & _ & _ & _ & _ & _ & _ & _ & _ & _ & _
        & Hbs & Hph & Hpw & Hep & Hms).
  unfold setting in Hbs, Hph, Hpw, Hep, Hms.
  simpl in Hin. destruct Hin as [<-|[<-|[<-|[<-|[<-|[]]]]]]; simpl in Hnone;
    rewrite Hnone in *; discriminate.
Qed.

(** A required port that holds no resource stops the invocation: for a
    declared input port, or a declared model port, of minimum 1 that is
    missing from its dictionary or empty, the invocation raises and the
    trainer is not called.  (The log-file port is the exception: see
    [empty_log_slot_is_tolerated].) *)
Theorem missing_required_port_is_fatal (w : world) (r : result bool) (w' : world)
    (pt : Port.t) :
  1 <= Port.minimum pt ->
  (In pt input_port_types /\ supplied inputs (Port.name pt) = 0)
  \/ (In pt output_port_types /\ Port.name pt <> LOG_FILE
      /\ supplied outputs (Port.name pt) = 0) ->
  run w = (r, w') ->
  is_raise r = true /\ trace w' = trace w.
Proof.
  intros Hmin Hmissing. apply no_derivation_no_call. intros args Hprep.
  destruct (prepare_inv _ _ _ _ _ Hprep)
    as (p_image & rm & nm & sym & bm & pb & ps & Himage & _ & Hrm & Hnm & _ & Hbm
        & _ & Hpb & Hps & _).
  unfold layer_mask in Hrm, Hnm, Hbm.
  bind_split Hrm as p_r Hp_r. bind_split Hnm as p_n Hp_n. bind_split Hbm as p_b Hp_b.
  assert (Hheld : forall d port p, port_path d port = Ok p -> supplied d port <> 0).
  { intros d port p Hp. apply port_path_ok in Hp as (r0 & rest & Hget & _).
    unfold supplied. rewrite Hget. discriminate. }
  destruct Hmissing as [[Hin Hzero]|(Hin & Hlog & Hzero)]; simpl in Hin.
  - destruct Hin as [<-|[<-|[<-|[<-|[<-|[<-|[]]]]]]]; simpl in Hmin, Hzero; try lia.
    + exact (Hheld _ _ _ Himage Hzero).
    + exact (Hheld _ _ _ Hp_b Hzero).
    + exact (Hheld _ _ _ Hp_n Hzero).
    + exact (Hheld _ _ _ Hp_r Hzero).
  - destruct Hin as [<-|[<-|[<-|[<-|[<-|[]]]]]]; simpl in Hmin, Hzero, Hlog; try lia.
    + exact (Hheld _ _ _ Hpb Hzero).
    + exact (Hheld _ _ _ Hps Hzero).
    + congruence.
Qed.

(** A layer that cannot be decoded, or that has no alpha channel, stops the
    invocation: when the background, symbols or selected-regions layer, or a
    supplied staff or text layer, reads as [None] or as an array of fewer
    than four channels, the invocation raises and the trainer is not
    called. *)
Theorem undecodable_layer_is_fatal (w : world) (r : result bool) (w' : world)
    (port : string) (res : resource) (rest : list resource) :
  In port [BACKGROUND_LAYER; SYMBOL_LAYER; SELECTED_REGIONS; STAFF_LAYER; TEXT_LAYER] ->
  dict_get inputs port = Some (res :: rest) ->
  (imread (resource_path res) IMREAD_UNCHANGED = None
   \/ exists img, imread (resource_path res) IMREAD_UNCHANGED = Some img
                  /\ nchannels img <= 3) ->
  run w = (r, w') ->
  is_raise r = true /\ trace w' = trace w.
Proof.
  intros Hport Hget Hbad. apply no_derivation_no_call. intros args Hprep.
  assert (Hraise : is_raise (layer_mask imread inputs port) = true).
  { unfold layer_mask. rewrite (port_path_first _ _ _ _ Hget). simpl.
    destruct Hbad as [->|(img & -> & Hch)]; [reflexivity|].
    unfold alpha_opaque. destruct (Nat.leb_spec (nchannels img) 3); [reflexivity | lia]. }
  destruct (prepare_gt _ _ _ _ _ Hprep)
    as (rm & Hrm & (bm & Hbm & _) & (sym & Hsym & _) & Hs_in & _ & Ht_in & _).
  assert (Hrestricted : forall m, restricted_mask imread inputs port rm = Ok m -> False).
  { intros m Hm. unfold restricted_mask in Hm. bind_split Hm as lm Hlm.
    rewrite Hlm in Hraise. discriminate. }
  simpl in Hport. destruct Hport as [<-|[<-|[<-|[<-|[<-|[]]]]]].
  - rewrite Hbm in Hraise. discriminate.
  - exact (Hrestricted _ Hsym).
  - rewrite Hrm in Hraise. discriminate.
  - destruct (Hs_in ltac:(eauto)) as (m & Hm & _). exact (Hrestricted _ Hm).
  - destruct (Ht_in ltac:(eauto)) as (m & Hm & _). exact (Hrestricted _ Hm).
Qed.

End Refusals.

(** ** What the derivation does not look at *)

Lemma layer_mask_ext (imread imread' : string -> imread_flag -> option image)
    (inputs : dict (list resource)) (port : string) :
  (forall p, imread' p IMREAD_UNCHANGED = imread p IMREAD_UNCHANGED) ->
  layer_mask imread' inputs port = layer_mask imread inputs port.
Proof.
  intros Hsame. unfold layer_mask.
  destruct (port_path inputs port) as [p|e]; simpl; [rewrite Hsame|]; reflexivity.
Qed.

Lemma optional_layer_ext (imread imread' : string -> imread_flag -> option image)
    (inputs : dict (list resource)) (regions_mask : mask) (g : gmap string mask) (k : string) :
  (forall p, imread' p IMREAD_UNCHANGED = imread p IMREAD_UNCHANGED) ->
  optional_layer imread' inputs regions_mask g k = optional_layer imread inputs regions_mask g k.
Proof.
  intros Hsame. rewrite !optional_layer_eq. unfold restricted_mask.
  rewrite !(layer_mask_ext imread imread') by exact Hsame. reflexivity.
Qed.

(** The base image is decoded and handed on, and never looked at: whether
    it can be read, and what it holds, changes nothing of the derivation but
    the [input_image] argument.  Two decoders that agree on the layers give
    the same exception, or the same arguments up to the base image. *)
Theorem base_image_is_not_inspected
    (imread imread' : string -> imread_flag -> option image)
    (inputs outputs : dict (list resource)) (settings : gmap string Z) :
  (forall p, imread' p IMREAD_UNCHANGED = imread p IMREAD_UNCHANGED) ->
  prepare imread' inputs settings outputs =
  (p ← port_path inputs IMAGE;
   args ← prepare imread inputs settings outputs;
   Ok (with_input_image (imread' p IMREAD_COLOR) args)).
Proof.
  intros Hsame. unfold prepare.
  destruct (port_path inputs IMAGE) as [p_image|e]; simpl; [|reflexivity].
  destruct (port_path inputs BACKGROUND_LAYER) as [p_bg|e]; simpl; [|reflexivity].
  destruct (port_path inputs SYMBOL_LAYER) as [p_notes|e]; simpl; [|reflexivity].
  destruct (port_path inputs SELECTED_REGIONS) as [p_regions|e]; simpl; [|reflexivity].
  rewrite !Hsame.
  destruct (alpha_opaque (imread p_regions IMREAD_UNCHANGED)) as [rm|e]; simpl; [|reflexivity].
  destruct (alpha_opaque (imread p_notes IMREAD_UNCHANGED)) as [nm|e]; simpl; [|reflexivity].
  destruct (logical_and nm rm) as [sym|e]; simpl; [|reflexivity].
  destruct (alpha_opaque (imread p_bg IMREAD_UNCHANGED)) as [bm|e]; simpl; [|reflexivity].
  destruct (setting settings "Batch Size") as [bs|e]; simpl; [|reflexivity].
  destruct (setting settings "Patch height") as [ph|e]; simpl; [|reflexivity].
  destruct (setting settings "Patch width") as [pw|e]; simpl; [|reflexivity].
  destruct (setting settings "Maximum number of training epochs") as [ep|e]; simpl;
    [|reflexivity].
  destruct (setting settings "Maximum number of samples per label") as [ms|e]; simpl;
    [|reflexivity].
  destruct (port_path outputs BACKGROUND_MODEL) as [pb|e]; simpl; [|reflexivity].
  destruct (port_path outputs SYMBOL_MODEL) as [ps|e]; simpl; [|reflexivity].
  rewrite (for_each_ext _ (optional_layer imread' inputs rm) (optional_layer imread inputs rm))
    by (intros g k; apply optional_layer_ext; exact Hsame).
  destruct (for_each (keys inputs) (optional_layer imread inputs rm) _) as [g|e]; simpl;
    [|reflexivity].
  destruct (for_each (keys outputs) (optional_model outputs) _) as [o|e]; reflexivity.
Qed.

Lemma dict_get_first_only (d : dict (list resource)) (k : string) :
  dict_get (first_only d) k = take 1 <$> dict_get d k.
Proof.
  unfold first_only. induction d as [|[k' l] d IH]; simpl; [reflexivity|].
  destruct (String.eqb k k'); [reflexivity | exact IH].
Qed.

Lemma keys_first_only (d : dict (list resource)) : keys (first_only d) = keys d.
Proof.
  unfold keys, first_only. rewrite map_map. apply map_ext. intros [k l]. reflexivity.
Qed.

Lemma port_path_first_only (d : dict (list resource)) (port : string) :
  port_path (first_only d) port = port_path d port.
Proof.
  unfold port_path, getitem. rewrite dict_get_first_only.
  destruct (dict_get d port) as [[|r rest]|]; reflexivity.
Qed.

Lemma prepare_first_only (imread : string -> imread_flag -> option image)
    (inputs outputs : dict (list resource)) (settings : gmap string Z) :
  prepare imread (first_only inputs) settings (first_only outputs)
  = prepare imread inputs settings outputs.
Proof.
  unfold prepare, optional_layer, optional_model.
  rewrite !keys_first_only, !port_path_first_only. reflexivity.
Qed.

Lemma log_setup_first_only (can_open : string -> bool) (outputs : dict (list resource)) :
  log_setup can_open (first_only outputs) = log_setup can_open outputs.
Proof.
  unfold log_setup. rewrite dict_get_first_only.
  destruct (dict_get outputs LOG_FILE) as [[|r rest]|]; reflexivity.
Qed.

(** Only the first resource of a port is ever used: an invocation on port
    dictionaries cut down to the first resource of every port does exactly
    what it does on the dictionaries themselves. *)
Theorem only_first_resource_is_used
    (imread : string -> imread_flag -> option image) (can_open : string -> bool)
    (rlevel : string) (train_msae : train_args -> proc -> result bool * proc)
    (inputs outputs : dict (list resource)) (settings : gmap string Z) (w : world) :
  run_my_task imread can_open rlevel train_msae
    (first_only inputs) settings (first_only outputs) w
  = run_my_task imread can_open rlevel train_msae inputs settings outputs w.
Proof.
  rewrite !run_my_task_eq, log_setup_first_only, prepare_first_only. reflexivity.
Qed.

(** ** The order of the keys *)

Lemma dict_get_list_to_map {V} (d : dict V) (k : string) :
  dict_get d k = (list_to_map d : gmap string V) !! k.
Proof.
  induction d as [|[k' v] d IH]; simpl; [symmetry; apply lookup_empty|].
  rewrite lookup_insert. destruct (String.eqb_spec k k') as [->|Hne].
  - rewrite decide_True by reflexivity. reflexivity.
  - rewrite decide_False by congruence. exact IH.
Qed.

Lemma keys_fmap {V} (d : dict V) : keys d = d.*1.
Proof. induction d as [|[k v] d IH]; simpl; [reflexivity | f_equal; exact IH]. Qed.

(** A dictionary has one value per key, so the order of its items does not
    show in a lookup. *)
Lemma dict_get_perm {V} (d d' : dict V) (k : string) :
  NoDup (keys d) -> d ≡ₚ d' -> dict_get d' k = dict_get d k.
Proof.
  intros Hnodup Hperm. rewrite !dict_get_list_to_map.
  rewrite keys_fmap in Hnodup.
  rewrite (list_to_map_proper d d' Hnodup Hperm). reflexivity.
Qed.

Lemma port_path_perm (d d' : dict (list resource)) (port : string) :
  NoDup (keys d) -> d ≡ₚ d' -> port_path d' port = port_path d port.
Proof.
  intros Hnodup Hperm. unfold port_path, getitem.
  rewrite (dict_get_perm d d') by assumption. reflexivity.
Qed.

Lemma keys_perm {V} (d d' : dict V) (k : string) :
  NoDup (keys d) -> d ≡ₚ d' -> k ∈ keys d' <-> k ∈ keys d.
Proof.
  intros Hnodup Hperm. rewrite !dict_get_keys, (dict_get_perm d d') by assumption.
  reflexivity.
Qed.

(** On dictionaries that hold the same items in another order the
    derivation goes through as well, with the same base image and settings
    and with mappings of the same entries. *)
Lemma prepare_perm
    (imread : string -> imread_flag -> option image)
    (inputs inputs' outputs outputs' : dict (list resource)) (settings : gmap string Z)
    (args : train_args) :
  NoDup (keys inputs) -> inputs ≡ₚ inputs' ->
  NoDup (keys outputs) -> outputs ≡ₚ outputs' ->
  prepare imread inputs settings outputs = Ok args ->
  prepare imread inputs' settings outputs' = Ok args.
Proof.
  intros Hnd_in Hp_in Hnd_out Hp_out Hprep.
  destruct (prepare_inv _ _ _ _ _ Hprep)
    as (p_image & rm & nm & sym & bm & pb & ps & Himage & Hin_image & Hrm & Hnm & Hsym & Hbm
        & Hg & Hpb & Hps & Ho & Hbs & Hph & Hpw & Hep & Hms).
  assert (Hpath : forall port, port_path inputs' port = port_path inputs port)
    by (intros port; apply port_path_perm; assumption).
  assert (Hpath_out : forall port, port_path outputs' port = port_path outputs port)
    by (intros port; apply port_path_perm; assumption).
  assert (Hlayer : forall port,
            layer_mask imread inputs' port = layer_mask imread inputs port)
    by (intros port; unfold layer_mask; rewrite Hpath; reflexivity).
  assert (Hres : forall port,
            restricted_mask imread inputs' port rm = restricted_mask imread inputs port rm)
    by (intros port; unfold restricted_mask; rewrite Hlayer; reflexivity).
  (* the loop over the inputs *)
  pose proof (for_each_optional STAFF_LAYER TEXT_LAYER "staff" "text" _ _ _
                (optional_layer_step imread inputs rm) ltac:(discriminate) ltac:(discriminate)
                _ _ _ Hg) as (Hoth & Hs_in & Hs_out & Ht_in & Ht_out).
  destruct (for_each_runs STAFF_LAYER TEXT_LAYER "staff" "text" _ _ _
              (optional_layer_eq imread inputs' rm) (keys inputs')
              (<["background" := bm]> (<["symbols" := sym]> ∅)))
    as (g' & Hg').
  { intros Hin. apply (keys_perm inputs inputs') in Hin; [|assumption..].
    destruct (Hs_in Hin) as (v & Hv & _). rewrite Hres, Hv. reflexivity. }
  { intros Hin. apply (keys_perm inputs inputs') in Hin; [|assumption..].
    destruct (Ht_in Hin) as (v & Hv & _). rewrite Hres, Hv. reflexivity. }
  pose proof (for_each_optional STAFF_LAYER TEXT_LAYER "staff" "text" _ _ _
                (optional_layer_step imread inputs' rm) ltac:(discriminate) ltac:(discriminate)
                _ _ _ Hg') as (Hoth' & Hs_in' & Hs_out' & Ht_in' & Ht_out').
  assert (Hsame_g : g' = gt args).
  { apply map_eq. intros c.
    destruct (decide (c = "staff")) as [->|Hst].
    { destruct (decide (STAFF_LAYER ∈ keys inputs)) as [Hin|Hout].
      - destruct (Hs_in Hin) as (v & Hv & ->).
        destruct (Hs_in' ltac:(apply (keys_perm inputs inputs'); assumption))
          as (v' & Hv' & ->).
        rewrite Hres in Hv'. congruence.
      - rewrite (Hs_out Hout), Hs_out'; [reflexivity|].
        intros Hin. apply Hout. apply (keys_perm inputs inputs'); assumption. }
    destruct (decide (c = "text")) as [->|Hte].
    { destruct (decide (TEXT_LAYER ∈ keys inputs)) as [Hin|Hout].
      - destruct (Ht_in Hin) as (v & Hv & ->).
        destruct (Ht_in' ltac:(apply (keys_perm inputs inputs'); assumption))
          as (v' & Hv' & ->).
        rewrite Hres in Hv'. congruence.
      - rewrite (Ht_out Hout), Ht_out'; [reflexivity|].
        intros Hin. apply Hout. apply (keys_perm inputs inputs'); assumption. }
    rewrite Hoth, Hoth' by assumption. reflexivity. }
  (* the loop over the outputs *)
  pose proof (for_each_optional STAFF_MODEL TEXT_MODEL "staff" "text" _ _ _
                (optional_model_step outputs) ltac:(discriminate) ltac:(discriminate)
                _ _ _ Ho) as (Ooth & Os_in & Os_out & Ot_in & Ot_out).
  destruct (for_each_runs STAFF_MODEL TEXT_MODEL "staff" "text" _ _ _
              (optional_model_eq outputs') (keys outputs')
              (<["symbols" := ps]> (<["background" := pb]> ∅)))
    as (o' & Ho').
  { intros Hin. apply (keys_perm outputs outputs') in Hin; [|assumption..].
    destruct (Os_in Hin) as (v & Hv & _). rewrite Hpath_out, Hv. reflexivity. }
  { intros Hin. apply (keys_perm outputs outputs') in Hin; [|assumption..].
    destruct (Ot_in Hin) as (v & Hv & _). rewrite Hpath_out, Hv. reflexivity. }
  pose proof (for_each_optional STAFF_MODEL TEXT_MODEL "staff" "text" _ _ _
                (optional_model_step outputs') ltac:(discriminate) ltac:(discriminate)
                _ _ _ Ho') as (Ooth' & Os_in' & Os_out' & Ot_in' & Ot_out').
  assert (Hsame_o : o' = output_path args).
  { apply map_eq. intros c.
    destruct (decide (c = "staff")) as [->|Hst].
    { destruct (decide (STAFF_MODEL ∈ keys outputs)) as [Hin|Hout].
      - destruct (Os_in Hin) as (v & Hv & ->).
        destruct (Os_in' ltac:(apply (keys_perm outputs outputs'); assumption))
          as (v' & Hv' & ->).
        rewrite Hpath_out in Hv'. congruence.
      - rewrite (Os_out Hout), Os_out'; [reflexivity|].
        intros Hin. apply Hout. apply (keys_perm outputs outputs'); assumption. }
    destruct (decide (c = "text")) as [->|Hte].
    { destruct (decide (TEXT_MODEL ∈ keys outputs)) as [Hin|Hout].
      - destruct (Ot_in Hin) as (v & Hv & ->).
        destruct (Ot_in' ltac:(apply (keys_perm outputs outputs'); assumption))
          as (v' & Hv' & ->).
        rewrite Hpath_out in Hv'. congruence.
      - rewrite (Ot_out Hout), Ot_out'; [reflexivity|].
        intros Hin. apply Hout. apply (keys_perm outputs outputs'); assumption. }
    rewrite Ooth, Ooth' by assumption. reflexivity. }
  subst g' o'.
  rewrite (prepare_runs imread inputs' outputs' settings p_image rm nm sym bm
             (batch_size args) (height args) (width args) (epochs args)
             (max_samples_per_class args) pb ps (gt args) (output_path args));
    rewrite ?Hpath, ?Hpath_out, ?Hlayer; try assumption.
  rewrite <- Hin_image. destruct args; reflexivity.
Qed.

(** What the two mappings of the call hold does not depend on the order in
    which the port dictionaries hold their keys: when the derivation goes
    through, it goes through on dictionaries that hold the same items in
    another order, with the same base image and settings, the same classes
    in the ground truth and among the output paths, and the same mask and
    the same path for each class.  (The order in which the two Python
    dictionaries of the call enumerate their classes follows the order of
    the keys; the finite maps of [train_args] do not keep it, and this
    statement is about the entries only.) *)
Theorem key_order_is_immaterial
    (imread : string -> imread_flag -> option image)
    (inputs inputs' outputs outputs' : dict (list resource)) (settings : gmap string Z)
    (args : train_args) :
  NoDup (keys inputs) -> inputs ≡ₚ inputs' ->
  NoDup (keys outputs) -> outputs ≡ₚ outputs' ->
  prepare imread inputs settings outputs = Ok args ->
  exists args',
    prepare imread inputs' settings outputs' = Ok args'
    /\ input_image args' = input_image args
    /\ (forall c, gt args' !! c = gt args !! c)
    /\ (forall c, output_path args' !! c = output_path args !! c)
    /\ height args' = height args
    /\ width args' = width args
    /\ epochs args' = epochs args
    /\ max_samples_per_class args' = max_samples_per_class args
    /\ batch_size args' = batch_size args.
Proof.
  intros Hnd_in Hp_in Hnd_out Hp_out Hprep.
  exists args. split.
  - exact (prepare_perm imread inputs inputs' outputs outputs' settings args
             Hnd_in Hp_in Hnd_out Hp_out Hprep).
  - repeat split; reflexivity.
Qed.

(** ** The ground truth, pixel by pixel *)

Lemma at2_alpha (img : image) (i j : nat) :
  at2 (map (map (fun px => Z.eqb (nth 3 px 0%Z) 255)) img) i j
  = Z.eqb (alpha_at img i j) 255.
Proof.
  unfold at2, alpha_at.
  set (f := fun px : list Z => Z.eqb (nth 3 px 0%Z) 255).
  change (@nil bool) with (map f []). rewrite map_nth.
  change false with (f []). rewrite map_nth. reflexivity.
Qed.

Lemma shape_tabulate2 (h w : nat) (f : nat -> nat -> bool) :
  0 < h -> shape (tabulate2 h w f) = (h, w).
Proof.
  intros Hh. unfold shape, nrows, ncols, tabulate2.
  rewrite length_map, length_seq. destruct h as [|h]; [lia|].
  simpl. rewrite length_map, length_seq. reflexivity.
Qed.

Lemma shape_logical_and (a b m : mask) :
  logical_and a b = Ok m -> shape a = shape b -> 0 < nrows b -> shape m = shape b.
Proof.
  unfold shape at 1 2. intros Hand [= Hr Hc] Hrows.
  unfold logical_and, broadcast_dim in Hand. rewrite Hr, Hc, !Nat.eqb_refl in Hand.
  injection Hand as <-. apply shape_tabulate2. exact Hrows.
Qed.

Section Pixels.

Variable imread : string -> imread_flag -> option image.
Variable can_open : string -> bool.
Variable rlevel : string.
Variable train_msae : train_args -> proc -> result bool * proc.
Variables (inputs outputs : dict (list resource)) (settings : gmap string Z).

Local Abbreviation run := (run_my_task imread can_open rlevel train_msae inputs settings outputs).

(** The decoded layer and selected regions behind the ground truth of a
    class other than background. *)
Lemma restricted_images (args : train_args) (c port : string) (m : mask) :
  prepare imread inputs settings outputs = Ok args ->
  restricted_layer c = Some port ->
  gt args !! c = Some m ->
  exists p_layer p_regions layer regions,
    port_path inputs port = Ok p_layer
    /\ imread p_layer IMREAD_UNCHANGED = Some layer
    /\ port_path inputs SELECTED_REGIONS = Ok p_regions
    /\ imread p_regions IMREAD_UNCHANGED = Some regions
    /\ logical_and (map (map (fun px => Z.eqb (nth 3 px 0%Z) 255)) layer)
                   (map (map (fun px => Z.eqb (nth 3 px 0%Z) 255)) regions) = Ok m.
Proof.
  intros Hprep Hport Hm.
  destruct (prepare_restricted imread inputs outputs settings _ _ _ _ Hprep Hport Hm)
    as (lm & rm & Hlm & Hrm & Hand).
  unfold layer_mask in Hlm, Hrm.
  bind_split Hlm as p_layer Hp_layer. bind_split Hrm as p_regions Hp_regions.
  apply alpha_opaque_ok in Hlm as (layer & Hlayer & ->).
  apply alpha_opaque_ok in Hrm as (regions & Hregions & ->).
  exists p_layer, p_regions, layer, regions. auto.
Qed.

(** A pixel is ground truth of symbols, staff or text exactly when it is
    fully opaque both in the class layer and in the selected regions: with
    the two layers of one size, a labelled pixel has alpha 255 in both, and
    a pixel of the layers with alpha 255 in both is labelled.  Any other
    alpha, 254 as much as 0, leaves the pixel out. *)
Theorem labelled_pixels_are_fully_opaque (w : world) (r : result bool) (w' : world)
    (new : list event) (args : train_args) (c port : string) (m : mask) :
  run w = (r, w') ->
  trace w' = trace w ++ new ->
  In args (trainer_calls new) ->
  restricted_layer c = Some port ->
  gt args !! c = Some m ->
  exists p_layer p_regions layer regions,
    port_path inputs port = Ok p_layer
    /\ imread p_layer IMREAD_UNCHANGED = Some layer
    /\ port_path inputs SELECTED_REGIONS = Ok p_regions
    /\ imread p_regions IMREAD_UNCHANGED = Some regions
    /\ (shape layer = shape regions ->
        forall i j,
          (at2 m i j = true ->
             alpha_at layer i j = 255%Z /\ alpha_at regions i j = 255%Z)
          /\ (i < nrows regions -> j < ncols regions ->
              alpha_at layer i j = 255%Z -> alpha_at regions i j = 255%Z ->
              at2 m i j = true)).
Proof.
  intros Hrun Htrace Hin Hport Hm.
  pose proof (called_with_prepared _ _ _ _ _ _ _ _ _ _ _ _ Hrun Htrace Hin) as Hprep.
  destruct (restricted_images _ _ _ _ Hprep Hport Hm)
    as (p_layer & p_regions & layer & regions & Hp_l & Hl & Hp_r & Hr & Hand).
  exists p_layer, p_regions, layer, regions. do 4 (split; [assumption|]).
  intros Hshape i j.
  set (f := fun px : list Z => Z.eqb (nth 3 px 0%Z) 255) in *.
  assert (Hmask_shape : shape (map (map f) layer) = shape (map (map f) regions)).
  { unfold shape, nrows, ncols in *. rewrite !length_map.
    injection Hshape as Hrows Hcols. rewrite Hrows. f_equal.
    destruct layer, regions; simpl in *; rewrite ?length_map; congruence. }
  split.
  - intros Hij.
    destruct (logical_and_true_same_shape _ _ _ _ _ Hand Hmask_shape Hij) as [Ha Hb].
    unfold f in Ha, Hb. rewrite at2_alpha in Ha, Hb.
    apply Z.eqb_eq in Ha, Hb. auto.
  - intros Hi Hj Ha Hb.
    rewrite (logical_and_cell _ _ _ i j Hand Hmask_shape).
    + unfold f. rewrite !at2_alpha, Ha, Hb. reflexivity.
    + unfold nrows. rewrite length_map. exact Hi.
    + unfold ncols in *. destruct regions; simpl in *; [lia|]. rewrite length_map. exact Hj.
Qed.

(** The ground truth has the size of the annotation layers, and the size of
    the base image plays no part: the mask of background has the size of the
    background layer, and the mask of symbols, staff or text that of the
    selected regions when the class layer has that size too. *)
Theorem ground_truth_has_layer_size (w : world) (r : result bool) (w' : world)
    (new : list event) (args : train_args) :
  run w = (r, w') ->
  trace w' = trace w ++ new ->
  In args (trainer_calls new) ->
  (exists p background m,
     port_path inputs BACKGROUND_LAYER = Ok p
     /\ imread p IMREAD_UNCHANGED = Some background
     /\ gt args !! "background" = Some m
     /\ shape m = shape background)
  /\ (forall c port m,
        restricted_layer c = Some port -> gt args !! c = Some m ->
        exists p_layer p_regions layer regions,
          port_path inputs port = Ok p_layer
          /\ imread p_layer IMREAD_UNCHANGED = Some layer
          /\ port_path inputs SELECTED_REGIONS = Ok p_regions
          /\ imread p_regions IMREAD_UNCHANGED = Some regions
          /\ (shape layer = shape regions -> 0 < nrows regions ->
              shape m = shape regions)).
Proof.
  intros Hrun Htrace Hin.
  pose proof (called_with_prepared _ _ _ _ _ _ _ _ _ _ _ _ Hrun Htrace Hin) as Hprep.
  assert (Hmap : forall (f : list Z -> bool) (a : image), shape (map (map f) a) = shape a).
  { intros f a. unfold shape, nrows, ncols. rewrite length_map.
    destruct a; simpl; rewrite ?length_map; reflexivity. }
  split.
  - destruct (prepare_gt _ _ _ _ _ Hprep) as (rm & _ & (m & Hm & Hg) & _).
    unfold layer_mask in Hm. bind_split Hm as p Hp.
    apply alpha_opaque_ok in Hm as (background & Hread & ->).
    exists p, background. eexists. repeat split; eauto.
  - intros c port m Hport Hm.
    destruct (restricted_images _ _ _ _ Hprep Hport Hm)
      as (p_layer & p_regions & layer & regions & Hp_l & Hl & Hp_r & Hr & Hand).
    exists p_layer, p_regions, layer, regions. do 4 (split; [assumption|]).
    intros Hshape Hrows.
    rewrite (shape_logical_and _ _ _ Hand); rewrite ?Hmap; auto.
    unfold nrows. rewrite length_map. exact Hrows.
Qed.

End Pixels.

(** ** One invocation after another *)

Lemma handlers_after_run
    (imread : string -> imread_flag -> option image) (can_open : string -> bool)
    (rlevel : string) (train_msae : train_args -> proc -> result bool * proc)
    (inputs outputs : dict (list resource)) (settings : gmap string Z)
    (w : world) (r : result bool) (w' : world) :
  (forall args p, logger_handlers (snd (train_msae args p)) = logger_handlers p) ->
  run_my_task imread can_open rlevel train_msae inputs settings outputs w = (r, w') ->
  logger_handlers (process w') = logger_handlers (process w) ++ attached can_open outputs.
Proof.
  intros Hkeeps. rewrite run_my_task_eq. cbv zeta. unfold attached.
  destruct (log_setup can_open outputs) as [hs|e].
  - destruct (prepare imread inputs settings outputs) as [args|e].
    + destruct (train_msae args _) as [o p'] eqn:Htrain.
      pose proof (Hkeeps args (set_streams (LoggingProxy rlevel, LoggingProxy rlevel)
                                 (add_handlers hs (process w)))) as Hk.
      rewrite Htrain in Hk. simpl in Hk.
      destruct o; intros [= <- <-]; simpl; rewrite Hk; reflexivity.
    + intros [= <- <-]. reflexivity.
  - intros [= <- <-]. rewrite app_nil_r. reflexivity.
Qed.

(** The file handlers pile up from one invocation to the next in a process:
    with a trainer that leaves the logger's handlers alone, after a second
    invocation the logger has the handlers of before the first followed by
    those the two attached, and the trainer of the second is called with the
    file handler of the first still on the logger, so that what the second
    logs is written to the first's log file as well. *)
Theorem handlers_pile_up
    (imread : string -> imread_flag -> option image) (can_open : string -> bool)
    (rlevel : string) (train_msae : train_args -> proc -> result bool * proc)
    (inputs1 outputs1 inputs2 outputs2 : dict (list resource))
    (settings1 settings2 : gmap string Z)
    (w : world) (r1 : result bool) (w1 : world) (r2 : result bool) (w2 : world) :
  (forall args p, logger_handlers (snd (train_msae args p)) = logger_handlers p) ->
  run_my_task imread can_open rlevel train_msae inputs1 settings1 outputs1 w = (r1, w1) ->
  run_my_task imread can_open rlevel train_msae inputs2 settings2 outputs2 w1 = (r2, w2) ->
  logger_handlers (process w2) =
    logger_handlers (process w) ++ attached can_open outputs1 ++ attached can_open outputs2
  /\ (forall new args p o,
        trace w2 = trace w1 ++ new -> In (TrainCall args p o) new ->
        logger_handlers p =
          logger_handlers (process w)
          ++ attached can_open outputs1 ++ attached can_open outputs2).
Proof.
  intros Hkeeps Hrun1 Hrun2.
  pose proof (handlers_after_run _ _ _ _ _ _ _ _ _ _ Hkeeps Hrun1) as H1.
  pose proof (handlers_after_run _ _ _ _ _ _ _ _ _ _ Hkeeps Hrun2) as H2.
  split; [rewrite H2, H1, <- app_assoc; reflexivity|].
  intros new args p o Htrace Hin.
  destruct (run_my_task_events _ _ _ _ _ _ _ _ _ _ _ Hrun2 Htrace)
    as [(e & _ & -> & _)|(hs & args' & o' & p' & Hlog & _ & _ & -> & _)].
  - destruct Hin.
  - assert (Hp : p = set_streams (LoggingProxy rlevel, LoggingProxy rlevel)
                       (add_handlers hs (process w1))).
    { destruct o'; simpl in Hin; destruct Hin as [[= _ <- _]|Hin]; try reflexivity.
      - destruct Hin as [[=]|[]].
      - destruct Hin. }
    subst p. simpl. rewrite H1, <- app_assoc. unfold attached. rewrite Hlog. reflexivity.
Qed.

(** ** The further properties on concrete invocations *)

Import Scenarios.

Lemma trainer_called_after_redirection_witness :
  sys_stdout p_call = LoggingProxy "WARNING"
  /\ sys_stderr p_call = LoggingProxy "WARNING"
  /\ logger_handlers p_call =
       logger_handlers (process w0)
       ++ match log_setup writable outputs0 with Ok hs => hs | Raise _ => [] end
  /\ fst (trainer_ok args0 p_call) = Ok true.
Proof.
  apply (trainer_called_after_redirection files writable "WARNING" trainer_ok
           inputs0 outputs0 settings0 w0 (fst (run_plain trainer_ok))
           (snd (run_plain trainer_ok)) (trace (snd (run_plain trainer_ok)))
           args0 p_call (Ok true)).
  - reflexivity.
  - reflexivity.
  - vm_compute. left. reflexivity.
Defined.

Lemma returns_true_or_raises_witness :
  fst (run_plain trainer_failed) <> Ok false
  /\ (fst (run_plain trainer_failed) = Ok true <->
      exists args p status,
        In (TrainCall args p (Ok status)) (trace (snd (run_plain trainer_failed)))).
Proof.
  apply (returns_true_or_raises files writable "WARNING" trainer_failed
           inputs0 outputs0 settings0 w0 (fst (run_plain trainer_failed))
           (snd (run_plain trainer_failed)) (trace (snd (run_plain trainer_failed)))).
  - reflexivity.
  - reflexivity.
Defined.

Lemma trainer_exception_propagates_witness :
  fst (run_plain trainer_crash) = Raise (TrainerError 1)
  /\ trace (snd (run_plain trainer_crash)) = [TrainCall args0 p_call (Raise (TrainerError 1))].
Proof.
  apply (trainer_exception_propagates files writable "WARNING" trainer_crash
           inputs0 outputs0 settings0 w0 (fst (run_plain trainer_crash))
           (snd (run_plain trainer_crash)) (trace (snd (run_plain trainer_crash)))
           args0 p_call (TrainerError 1)).
  - reflexivity.
  - reflexivity.
  - vm_compute. left. reflexivity.
Defined.

Lemma finishing_line_goes_to_the_logger_witness :
  (forall out text,
     In (Printed out text) (trace (snd (run_plain trainer_ok))) ->
     text = FINISHED /\ out = LoggingProxy "WARNING")
  /\ (fst (run_plain trainer_ok) = Ok true <->
      In (Printed (LoggingProxy "WARNING") FINISHED) (trace (snd (run_plain trainer_ok)))).
Proof.
  apply (finishing_line_goes_to_the_logger files writable "WARNING" trainer_ok
           inputs0 outputs0 settings0 w0 (fst (run_plain trainer_ok))
           (snd (run_plain trainer_ok)) (trace (snd (run_plain trainer_ok)))).
  - intros args p. reflexivity.
  - reflexivity.
  - reflexivity.
Defined.

Lemma missing_log_slot_raises_key_error_witness :
  run_on inputs0 settings0 outputs_nokey w0 = (Raise (KeyError "Log File"), w0).
Proof.
  apply (missing_log_slot_raises_key_error files writable "WARNING" trainer_ok
           inputs0 outputs_nokey settings0 w0).
  reflexivity.
Defined.


Lemma missing_setting_is_fatal_witness :
  is_raise (fst (run_on inputs0 ∅ outputs0 w0)) = true
  /\ trace (snd (run_on inputs0 ∅ outputs0 w0)) = trace w0.
Proof.
  apply (missing_setting_is_fatal files writable "WARNING" trainer_ok
           inputs0 outputs0 ∅ w0 (fst (run_on inputs0 ∅ outputs0 w0))
           (snd (run_on inputs0 ∅ outputs0 w0))
           {| Setting.name := "Batch Size"; Setting.minimum := 1;
              Setting.maximum := Some 64%Z; Setting.default := 16 |}).
  - simpl. left. reflexivity.
  - reflexivity.
  - reflexivity.
Defined.

Lemma missing_required_port_is_fatal_witness :
  is_raise (fst (run_on inputs_noimage settings0 outputs0 w0)) = true
  /\ trace (snd (run_on inputs_noimage settings0 outputs0 w0)) = trace w0.
Proof.
  apply (missing_required_port_is_fatal files writable "WARNING" trainer_ok
           inputs_noimage outputs0 settings0 w0
           (fst (run_on inputs_noimage settings0 outputs0 w0))
           (snd (run_on inputs_noimage settings0 outputs0 w0))
           {| Port.name := IMAGE; Port.minimum := 1; Port.maximum := 1;
              Port.resource_types := ["image/rgb+png"; "image/rgb+jpg"] |}).
  - simpl. lia.
  - left. split; [simpl; left; reflexivity | reflexivity].
  - reflexivity.
Defined.

Lemma undecodable_layer_is_fatal_witness :
  is_raise (fst (run_on inputs_unreadable settings0 outputs0 w0)) = true
  /\ trace (snd (run_on inputs_unreadable settings0 outputs0 w0)) = trace w0.
Proof.
  apply (undecodable_layer_is_fatal files writable "WARNING" trainer_ok
           inputs_unreadable outputs0 settings0 w0
           (fst (run_on inputs_unreadable settings0 outputs0 w0))
           (snd (run_on inputs_unreadable settings0 outputs0 w0))
           SELECTED_REGIONS {| resource_path := "nowhere.png" |} []).
  - simpl. right. right. left. reflexivity.
  - reflexivity.
  - left. reflexivity.
  - reflexivity.
Defined.

Lemma base_image_is_not_inspected_witness :
  prepare files_blind inputs0 settings0 outputs0 = Ok (with_input_image None args0).
Proof.
  rewrite (base_image_is_not_inspected files files_blind inputs0 outputs0 settings0).
  - vm_compute. reflexivity.
  - intros p. reflexivity.
Defined.

Lemma key_order_is_immaterial_witness :
  exists args',
    prepare files_text inputs_both_rev settings0 outputs_both_rev = Ok args'
    /\ input_image args' = input_image args_both
    /\ (forall c, gt args' !! c = gt args_both !! c)
    /\ (forall c, output_path args' !! c = output_path args_both !! c)
    /\ height args' = height args_both
    /\ width args' = width args_both
    /\ epochs args' = epochs args_both
    /\ max_samples_per_class args' = max_samples_per_class args_both
    /\ batch_size args' = batch_size args_both.
Proof.
  apply (key_order_is_immaterial files_text inputs_both inputs_both_rev
           outputs_both outputs_both_rev settings0 args_both).
  - refine (bool_decide_unpack _ _). vm_compute. exact I.
  - apply Permutation_rev.
  - refine (bool_decide_unpack _ _). vm_compute. exact I.
  - apply Permutation_rev.
  - vm_compute. reflexivity.
Defined.

Lemma conforming_invocation_reaches_trainer_witness :
  conforms input_port_types inputs_staff = true
  /\ conforms output_port_types outputs0 = true
  /\ valid_settings settings0 = true
  /\ exists args p o,
       In (TrainCall args p o) (trace (snd run_staff))
       /\ trainer_calls (trace (snd run_staff)) = [args]
       /\ fst run_staff = match o with Ok _ => Ok true | Raise e => Raise e end.
Proof.
  split; [reflexivity|]. split; [reflexivity|]. split; [reflexivity|].
  apply (conforming_invocation_reaches_trainer files writable "WARNING" trainer_ok
           inputs_staff outputs0 settings0 2 2 w0 (fst run_staff) (snd run_staff)
           (trace (snd run_staff))).
  - reflexivity.
  - reflexivity.
  - reflexivity.
  - intros port r rest Hget Hport.
    unfold inputs_staff, inputs0 in Hget. simpl in Hget.
    destruct (String.eqb_spec port IMAGE) as [->|_]; [contradiction|].
    repeat match type of Hget with
           | (if ?b then _ else _) = _ =>
               destruct b;
               [injection Hget as <- <-; eexists;
                split; [reflexivity | split; [unfold nchannels; simpl; lia | reflexivity]]
               |]
           end.
    discriminate.
  - intros r rest Hget. reflexivity.
  - reflexivity.
  - reflexivity.
Defined.

Lemma labelled_pixels_are_fully_opaque_witness :
  exists p_layer p_regions layer regions,
    port_path inputs_staff STAFF_LAYER = Ok p_layer
    /\ files p_layer IMREAD_UNCHANGED = Some layer
    /\ port_path inputs_staff SELECTED_REGIONS = Ok p_regions
    /\ files p_regions IMREAD_UNCHANGED = Some regions
    /\ (shape layer = shape regions ->
        forall i j,
          (at2 [[true; false]; [true; false]] i j = true ->
             alpha_at layer i j = 255%Z /\ alpha_at regions i j = 255%Z)
          /\ (i < nrows regions -> j < ncols regions ->
              alpha_at layer i j = 255%Z -> alpha_at regions i j = 255%Z ->
              at2 [[true; false]; [true; false]] i j = true)).
Proof.
  apply (labelled_pixels_are_fully_opaque files writable "WARNING" trainer_ok
           inputs_staff outputs0 settings0 w0 (fst run_staff) (snd run_staff)
           (trace (snd run_staff)) args_staff "staff" STAFF_LAYER).
  - reflexivity.
  - reflexivity.
  - vm_compute. left. reflexivity.
  - reflexivity.
  - reflexivity.
Defined.

Lemma ground_truth_has_layer_size_witness :
  exists p background m,
    port_path inputs0 BACKGROUND_LAYER = Ok p
    /\ files p IMREAD_UNCHANGED = Some background
    /\ gt args0 !! "background" = Some m
    /\ shape m = shape background.
Proof.
  destruct (ground_truth_has_layer_size files writable "WARNING" trainer_ok
              inputs0 outputs0 settings0 w0 (fst (run_plain trainer_ok))
              (snd (run_plain trainer_ok)) (trace (snd (run_plain trainer_ok))) args0)
    as [Hbackground _].
  - reflexivity.
  - reflexivity.
  - vm_compute. left. reflexivity.
  - exact Hbackground.
Defined.

Lemma handlers_pile_up_witness :
  logger_handlers (process w0) = []
  /\ logger_handlers
       (process (snd (run_on inputs0 settings0 outputs_second (snd (run_plain trainer_ok)))))
     = [] ++ attached writable outputs0 ++ attached writable outputs_second
  /\ attached writable outputs0 ++ attached writable outputs_second
     = [log_handler; second_handler].
Proof.
  split; [reflexivity|]. split; [|reflexivity].
  destruct (handlers_pile_up files writable "WARNING" trainer_ok
              inputs0 outputs0 inputs0 outputs_second settings0 settings0 w0
              (fst (run_plain trainer_ok)) (snd (run_plain trainer_ok))
              (fst (run_on inputs0 settings0 outputs_second (snd (run_plain trainer_ok))))
              (snd (run_on inputs0 settings0 outputs_second (snd (run_plain trainer_ok)))))
    as [Hafter _].
  - intros args p. reflexivity.
  - reflexivity.
  - reflexivity.
  - exact Hafter.
Defined.
